(** * Notification-to-event conversion (ceilometer/event/converter.py)

    A shallow embedding of [TraitDefinition], [EventDefinition] and
    [NotificationEventsConverter], and the properties of rule selection,
    type matching, trait extraction and when-extraction.

    Python exceptions are values of [result]; a notification body is a
    finite map from keys to JSON values; the rule table is a list. *)

From Stdlib Require Import ZArith Ascii String List Lia.
From stdpp Require Import base option list gmap strings pretty.

Set Warnings "-register-all".

Local Open Scope string_scope.
Local Open Scope list_scope.

(** ** Exceptions and results *)

Inductive exn : Type :=
| KeyError (key : string)
| TypeError
| ValueError
| EventDefinitionException (msg : string).

Inductive result (A : Type) : Type :=
| Ok (a : A)
| Raise (e : exn).
Arguments Ok {A} a.
Arguments Raise {A} e.

Definition rbind {A B} (r : result A) (k : A -> result B) : result B :=
  match r with
  | Ok a => k a
  | Raise e => Raise e
  end.

Declare Scope result_scope.
Delimit Scope result_scope with result.
Notation "'let*' x ':=' r 'in' k" := (rbind r (fun x => k))
  (at level 10, x name, r at level 100, k at level 200) : result_scope.
Local Open Scope result_scope.

Definition is_ok {A} (r : result A) : Prop := exists a, r = Ok a.

(** ** JSON documents, as Python deserialises them

    [JNull] is [None]; a float is kept as the dyadic rational
    [m * 2^e] it denotes; a dict is a finite map. *)

Inductive json : Type :=
| JNull
| JBool (b : bool)
| JInt (z : Z)
| JFloat (m e : Z)
| JStr (s : string)
| JList (l : list json)
| JDict (d : gmap string json).

(** Python truthiness ([if when:]). *)
Definition truthy (v : json) : bool :=
  match v with
  | JNull => false
  | JBool b => b
  | JInt z => negb (z =? 0)%Z
  | JFloat m _ => negb (m =? 0)%Z
  | JStr s => negb (String.eqb s "")
  | JList l => match l with [] => false | _ => true end
  | JDict d => negb (bool_decide (d = ∅))
  end.

Definition is_null (v : json) : bool :=
  match v with JNull => true | _ => false end.

(** [d.get(k)]: the value, or [None] when the key is absent. *)
Definition dict_get (d : gmap string json) (k : string) : json :=
  default JNull (d !! k).

(** [d.get(k, dflt)]. *)
Definition dict_get_default (d : gmap string json) (k : string) (dflt : json) : json :=
  default dflt (d !! k).

(** [d[k]]: raises [KeyError] when the key is absent. *)
Definition dict_item (d : gmap string json) (k : string) : result json :=
  match d !! k with
  | Some v => Ok v
  | None => Raise (KeyError k)
  end.

(** ** fnmatch

    [fnmatch.fnmatch(name, pat)] on a POSIX host ([os.path.normcase] is
    the identity there): [fnmatch.translate] turns the pattern into a
    regular expression, token by token, and the name must match it up to
    its end.  In a bracket expression every character stands for itself
    except the hyphen of a range; a range whose bounds are reversed is
    empty (interpreters that predate this reject such a pattern instead).
    Characters are those of [string]. *)

Inductive glob_tok : Type :=
| GStar
| GAny
| GSet (neg : bool) (items : list (ascii * ascii))
| GLit (c : ascii).

Definition ascii_le (a b : ascii) : bool := (nat_of_ascii a <=? nat_of_ascii b)%nat.

(** Index of the first [']'] of [l]. *)
Fixpoint find_close (l : list ascii) : option nat :=
  match l with
  | [] => None
  | c :: l' => if Ascii.eqb c "]" then Some 0%nat else S <$> find_close l'
  end.

(** The scan of [translate] after a ['[']: [j] skips a leading ['!'],
    then a leading [']'], then runs to the next [']'].  [None] when the
    pattern ends first (the ['['] is then literal). *)
Definition bracket_end (rest : list ascii) : option nat :=
  let j0 := match rest with
            | c :: _ => if Ascii.eqb c "!" then 1%nat else 0%nat
            | [] => 0%nat
            end in
  let j1 := match drop j0 rest with
            | c :: _ => if Ascii.eqb c "]" then S j0 else j0
            | [] => j0
            end in
  (fun k => (j1 + k)%nat) <$> find_close (drop j1 rest).

(** The members of a bracket expression, left to right: [x-y] is a range,
    any other character is itself. *)
Fixpoint set_items_from (skip : nat) (stuff : list ascii) : list (ascii * ascii) :=
  match stuff with
  | [] => []
  | x :: rest =>
      match skip with
      | S k => set_items_from k rest
      | O =>
          match rest with
          | h :: y :: _ =>
              if Ascii.eqb h "-"
              then (x, y) :: set_items_from 2 rest
              else (x, x) :: set_items_from 0 rest
          | _ => (x, x) :: set_items_from 0 rest
          end
      end
  end.

Definition set_of_stuff (stuff : list ascii) : glob_tok :=
  match stuff with
  | c :: stuff' =>
      if Ascii.eqb c "!"
      then GSet true (set_items_from 0 stuff')
      else GSet false (set_items_from 0 stuff)
  | [] => GSet false []
  end.

(** [translate]: [skip] counts the characters of a bracket expression
    already consumed by the scan. *)
Fixpoint translate_from (skip : nat) (pat : list ascii) : list glob_tok :=
  match pat with
  | [] => []
  | c :: rest =>
      match skip with
      | S k => translate_from k rest
      | O =>
          if Ascii.eqb c "*" then GStar :: translate_from 0 rest
          else if Ascii.eqb c "?" then GAny :: translate_from 0 rest
          else if Ascii.eqb c "[" then
            match bracket_end rest with
            | None => GLit c :: translate_from 0 rest
            | Some j => set_of_stuff (take j rest) :: translate_from (S j) rest
            end
          else GLit c :: translate_from 0 rest
      end
  end.

Definition translate (pat : string) : list glob_tok :=
  translate_from 0 (list_ascii_of_string pat).

Definition in_set (items : list (ascii * ascii)) (c : ascii) : bool :=
  existsb (fun r => ascii_le (fst r) c && ascii_le c (snd r)) items.

(** The whole of [s] matches the token list. *)
Fixpoint toks_match (ts : list glob_tok) (s : list ascii) {struct ts} : bool :=
  match ts with
  | [] => match s with [] => true | _ => false end
  | GStar :: ts' =>
      (fix star (s : list ascii) : bool :=
         toks_match ts' s ||
         match s with
         | [] => false
         | _ :: s' => star s'
         end) s
  | GAny :: ts' =>
      match s with
      | [] => false
      | _ :: s' => toks_match ts' s'
      end
  | GSet neg items :: ts' =>
      match s with
      | [] => false
      | c :: s' => xorb neg (in_set items c) && toks_match ts' s'
      end
  | GLit c :: ts' =>
      match s with
      | [] => false
      | c' :: s' => Ascii.eqb c c' && toks_match ts' s'
      end
  end.

Definition fnmatch (name pat : string) : bool :=
  toks_match (translate pat) (list_ascii_of_string name).

(** [fnmatch.fnmatch] on an arbitrary value: anything but a string is a
    [TypeError]. *)
Definition fnmatch_value (v : json) (pat : string) : result bool :=
  match v with
  | JStr s => Ok (fnmatch s pat)
  | _ => Raise TypeError
  end.

(** ** Python's [int()] *)

Definition is_space (c : ascii) : bool :=
  let n := nat_of_ascii c in
  (n =? 32)%nat || ((9 <=? n)%nat && (n <=? 13)%nat).

Fixpoint lstrip (l : list ascii) : list ascii :=
  match l with
  | c :: l' => if is_space c then lstrip l' else l
  | [] => []
  end.

Definition strip (l : list ascii) : list ascii :=
  rev (lstrip (rev (lstrip l))).

Definition digit_val (c : ascii) : option Z :=
  let n := nat_of_ascii c in
  if (48 <=? n)%nat && (n <=? 57)%nat then Some (Z.of_nat (n - 48)) else None.

Fixpoint digits_val (acc : Z) (l : list ascii) : option Z :=
  match l with
  | [] => Some acc
  | c :: l' =>
      match digit_val c with
      | Some d => digits_val (10 * acc + d) l'
      | None => None
      end
  end.

(** A base-10 literal: surrounding white space, an optional sign, one or
    more decimal digits. *)
Definition parse_int (s : string) : option Z :=
  match strip (list_ascii_of_string s) with
  | [] => None
  | c :: ds =>
      if Ascii.eqb c "-" then
        match ds with [] => None | _ => Z.opp <$> digits_val 0 ds end
      else if Ascii.eqb c "+" then
        match ds with [] => None | _ => digits_val 0 ds end
      else digits_val 0 (c :: ds)
  end.

Definition py_int (v : json) : result Z :=
  match v with
  | JInt z => Ok z
  | JBool b => Ok (if b then 1 else 0)%Z
  | JFloat m e =>
      Ok (if (0 <=? e)%Z then m * 2 ^ e else Z.quot m (2 ^ (- e)))%Z
  | JStr s =>
      match parse_int s with
      | Some z => Ok z
      | None => Raise ValueError
      end
  | JNull | JList _ | JDict _ => Raise TypeError
  end.

(** ** What the converter takes from its environment

    [str()] and [float()] of Python, [timeutils.parse_isotime] and
    [timeutils.normalize_time]: the converter only calls them.  A parse
    that raises is a [Raise]. *)

Class Runtime : Type := {
  datetime : Type;
  py_str : json -> string;
  py_float : json -> result (Z * Z);
  parse_isotime : json -> result datetime;
  normalize_time : datetime -> datetime
}.

(** ** JSONPath (jsonpath_rw): key access, children and unions *)

Inductive JSONPath : Type :=
| This
| Fields (names : list string)
| Child (left right : JSONPath)
| Union (left right : JSONPath).

(** [Fields.reified_fields]: a ["*"] among the names stands for every key
    of the datum. *)
Definition reified_fields (names : list string) (datum : json) : list string :=
  if bool_decide ("*" ∈ names) then
    match datum with
    | JDict d => (map_to_list d).*1
    | _ => []
    end
  else names.

(** [Fields.get_field_datum]: [datum.value[field]], nothing when that
    raises. *)
Definition get_field_datum (datum : json) (field : string) : option json :=
  match datum with
  | JDict d => d !! field
  | _ => None
  end.

Fixpoint find (p : JSONPath) (datum : json) : list json :=
  match p with
  | This => [datum]
  | Fields names => omap (get_field_datum datum) (reified_fields names datum)
  | Child l r => concat (map (find r) (find l datum))
  | Union l r => find l datum ++ find r datum
  end.

(** ** models.Trait and models.Event *)

Inductive TraitKind : Type := TEXT_TYPE | INT_TYPE | FLOAT_TYPE | DATETIME_TYPE.

Inductive trait_value `{Runtime} : Type :=
| VText (s : string)
| VInt (z : Z)
| VFloat (m e : Z)
| VDatetime (t : datetime).
Arguments VText {_} s.
Arguments VInt {_} z.
Arguments VFloat {_} m e.
Arguments VDatetime {_} t.

Record Trait `{Runtime} : Type := mkTrait {
  trait_name : string;
  dtype : TraitKind;
  value : trait_value
}.
Arguments mkTrait {_} _ _ _.

Record Event `{Runtime} : Type := mkEvent {
  event_type : json;
  generated : datetime;
  traits : list Trait
}.
Arguments mkEvent {_} _ _ _.

(** A Python dict of trait definitions, in insertion order:
    [d[k] = v] replaces in place or appends. *)
Fixpoint dict_set {V} (k : string) (v : V) (d : list (string * V)) : list (string * V) :=
  match d with
  | [] => [(k, v)]
  | (k', v') :: d' =>
      if String.eqb k k' then (k, v) :: d' else (k', v') :: dict_set k v d'
  end.

(** ** Rule configuration, as loaded from YAML

    A trait's [fields] entry is one path or a list of paths; the paths
    are kept as [jsonpath_rw.parse] returns them, and the string
    ['(p1)|(p2)|...'] that [TraitDefinition] builds from a list parses to
    the left-nested union of its members.  An entry that the parser rejects
    is kept as the text handed to the parser (the string, or the joined
    alternatives of a list) and the text of the exception the parser
    raises. *)

Inductive fields_cfg : Type :=
| FieldsStr (p : JSONPath)
| FieldsList (ps : list JSONPath)
| FieldsInvalid (text err : string).

Record trait_cfg : Type := mkTraitCfg {
  cfg_type : option string;
  cfg_fields : option fields_cfg
}.

Inductive event_type_cfg : Type :=
| TypeStr (s : string)
| TypeList (l : list string).

Record definition_cfg : Type := mkDefinitionCfg {
  cfg_event_type : option event_type_cfg;
  cfg_traits : option (list (string * trait_cfg))
}.

Definition ascii_upper (c : ascii) : ascii :=
  let n := nat_of_ascii c in
  if (97 <=? n)%nat && (n <=? 122)%nat then ascii_of_nat (n - 32) else c.

Definition upper (s : string) : string :=
  string_of_list_ascii (map ascii_upper (list_ascii_of_string s)).

(** Modelled from the spec: [models.Trait] is not part of the sources at
    hand; [getattr(models.Trait, '%s_TYPE' % type_name.upper(), None)] finds
    one of the four recognised kinds, or nothing. *)
Definition trait_type_of (type_name : string) : option TraitKind :=
  let n := upper type_name in
  if String.eqb n "TEXT" then Some TEXT_TYPE
  else if String.eqb n "INT" then Some INT_TYPE
  else if String.eqb n "FLOAT" then Some FLOAT_TYPE
  else if String.eqb n "DATETIME" then Some DATETIME_TYPE
  else None.

Module TraitDefinition.

Record t : Type := mk {
  cfg : trait_cfg;
  name : string;
  fields : JSONPath;
  trait_type : TraitKind
}.

(** The text of the exception [jsonpath_rw.parse] raises on the empty
    expression, which is what an empty list of alternatives joins to. *)
Definition empty_expression_error : string :=
  "'NoneType' object has no attribute 'lineno'".

(** ["Parse error in JSONPath specification '%s' for %s: %s" % (fields, name, e)] *)
Definition parse_error (fields name e : string) : exn :=
  EventDefinitionException
    ("Parse error in JSONPath specification '" +:+ fields +:+ "' for " +:+ name
     +:+ ": " +:+ e).

(** ["Invalid trait type '%s' for trait %s" % (type_name, name)] *)
Definition invalid_type_error (type_name name : string) : exn :=
  EventDefinitionException
    ("Invalid trait type '" +:+ type_name +:+ "' for trait " +:+ name).

(** [__init__] *)
Definition init (name : string) (trait_cfg : trait_cfg) : result t :=
  let type_name := default "text" (cfg_type trait_cfg) in
  match cfg_fields trait_cfg with
  | None =>
      Raise (EventDefinitionException
               "Required field in trait definition not specified: 'fields'")
  | Some fields =>
      let* path :=
        match fields with
        | FieldsStr p => Ok p
        | FieldsList [p] => Ok p
        | FieldsList (p :: ps) => Ok (fold_left Union ps p)
        | FieldsList [] => Raise (parse_error "" name empty_expression_error)
        | FieldsInvalid text err => Raise (parse_error text name err)
        end in
      match trait_type_of type_name with
      | None => Raise (invalid_type_error type_name name)
      | Some ty => Ok (mk trait_cfg name path ty)
      end
  end.

Section WithRuntime.
Context `{Runtime}.

Definition _convert_value (ty : TraitKind) (v : json) : result trait_value :=
  match ty with
  | INT_TYPE => let* z := py_int v in Ok (VInt z)
  | FLOAT_TYPE => let* f := py_float v in Ok (VFloat (fst f) (snd f))
  | DATETIME_TYPE => let* d := parse_isotime v in Ok (VDatetime (normalize_time d))
  | TEXT_TYPE => Ok (VText (py_str v))
  end.

(** The non-null values the path finds in the body, in order. *)
Definition values (self : t) (notification_body : gmap string json) : list json :=
  filter (fun v => is_null v = false) (find (fields self) (JDict notification_body)).

Definition to_trait (self : t) (notification_body : gmap string json)
  : result (option Trait) :=
  match values self notification_body with
  | [] => Ok None
  | v :: _ =>
      let* value := _convert_value (trait_type self) v in
      Ok (Some (mkTrait (name self) (trait_type self) value))
  end.
End WithRuntime.

End TraitDefinition.

Module EventDefinition.

Definition DEFAULT_TRAITS : list (string * trait_cfg) :=
  [ ("message_id", mkTraitCfg (Some "text") (Some (FieldsStr (Fields ["message_id"]))));
    ("service", mkTraitCfg (Some "text") (Some (FieldsStr (Fields ["publisher_id"]))));
    ("request_id", mkTraitCfg (Some "text") (Some (FieldsStr (Fields ["_context_request_id"]))));
    ("tenant_id", mkTraitCfg (Some "text") (Some (FieldsStr (Fields ["_context_tenant"])))) ].

Record t : Type := mk {
  _included_types : list string;
  _excluded_types : list string;
  traits : list (string * TraitDefinition.t);
  cfg : definition_cfg
}.

Definition startswith_bang (s : string) : bool :=
  match s with
  | String c _ => Ascii.eqb c "!"
  | EmptyString => false
  end.

(** [t[1:]] *)
Definition tail1 (s : string) : string :=
  match s with
  | String _ s' => s'
  | EmptyString => EmptyString
  end.

(** The loop over [event_type]: (included, excluded) after appending each
    entry to its list. *)
Fixpoint split_types (event_type : list string) : list string * list string :=
  match event_type with
  | [] => ([], [])
  | t :: rest =>
      let '(inc, exc) := split_types rest in
      if startswith_bang t then (inc, tail1 t :: exc) else (t :: inc, exc)
  end.

(** [if isinstance(event_type, six.string_types): event_type = [event_type]] *)
Definition type_entries (event_type : event_type_cfg) : list string :=
  match event_type with
  | TypeStr s => [s]
  | TypeList l => l
  end.

(** The two loops that fill [self.traits]. *)
Fixpoint add_traits (cfgs : list (string * trait_cfg))
    (acc : list (string * TraitDefinition.t)) : result (list (string * TraitDefinition.t)) :=
  match cfgs with
  | [] => Ok acc
  | (trait_name, c) :: rest =>
      let* td := TraitDefinition.init trait_name c in
      add_traits rest (dict_set trait_name td acc)
  end.

(** [__init__] *)
Definition init (definition_cfg : definition_cfg) : result t :=
  match cfg_event_type definition_cfg with
  | None => Raise (EventDefinitionException "Required field event_type not specified")
  | Some event_type =>
      match cfg_traits definition_cfg with
      | None => Raise (EventDefinitionException "Required field traits not specified")
      | Some traits =>
          let '(inc, exc) := split_types (type_entries event_type) in
          let inc :=
            match exc, inc with
            | _ :: _, [] => inc ++ ["*"]
            | _, _ => inc
            end in
          let* tr0 := add_traits DEFAULT_TRAITS [] in
          let* tr := add_traits traits tr0 in
          Ok (mk inc exc tr definition_cfg)
      end
  end.

(** The loop of [included_type] and of [excluded_type]. *)
Fixpoint any_fnmatch (event_type : json) (types : list string) : result bool :=
  match types with
  | [] => Ok false
  | t :: rest =>
      let* m := fnmatch_value event_type t in
      if m then Ok true else any_fnmatch event_type rest
  end.

Definition included_type (self : t) (event_type : json) : result bool :=
  any_fnmatch event_type (_included_types self).

Definition excluded_type (self : t) (event_type : json) : result bool :=
  any_fnmatch event_type (_excluded_types self).

Definition match_type (self : t) (event_type : json) : result bool :=
  let* inc := included_type self event_type in
  if inc then
    let* exc := excluded_type self event_type in
    Ok (negb exc)
  else Ok false.

Definition is_catchall (self : t) : bool :=
  bool_decide ("*" ∈ _included_types self) &&
  match _excluded_types self with [] => true | _ => false end.

Section WithRuntime.
Context `{Runtime}.

(** [now] is what [timeutils.utcnow()] returns at the call. *)
Definition _extract_when (now : datetime) (body : gmap string json) : result datetime :=
  let when := dict_get_default body "timestamp" (dict_get body "_context_timestamp") in
  if truthy when then
    let* d := parse_isotime when in Ok (normalize_time d)
  else Ok now.

(** The generator over [self.traits] and the list built from it: the
    traits that are not [None], in order; the first conversion that
    raises ends it. *)
Fixpoint collect_traits (tds : list (string * TraitDefinition.t))
    (notification_body : gmap string json) : result (list Trait) :=
  match tds with
  | [] => Ok []
  | (_, td) :: rest =>
      let* tr := TraitDefinition.to_trait td notification_body in
      let* trs := collect_traits rest notification_body in
      Ok (match tr with Some x => x :: trs | None => trs end)
  end.

Definition to_event (self : t) (now : datetime) (notification_body : gmap string json)
  : result Event :=
  let* event_type := dict_item notification_body "event_type" in
  let* when := _extract_when now notification_body in
  let* traits := collect_traits (traits self) notification_body in
  Ok (mkEvent event_type when traits).
End WithRuntime.

End EventDefinition.

Module NotificationEventsConverter.

Record t : Type := mk { definitions : list EventDefinition.t }.

Fixpoint build_definitions (events_config : list definition_cfg)
  : result (list EventDefinition.t) :=
  match events_config with
  | [] => Ok []
  | event_def :: rest =>
      let* d := EventDefinition.init event_def in
      let* ds := build_definitions rest in
      Ok (d :: ds)
  end.

(** [__init__] *)
Definition init (events_config : list definition_cfg) (add_catchall : bool) : result t :=
  let* definitions := build_definitions events_config in
  if add_catchall && negb (existsb EventDefinition.is_catchall definitions) then
    let event_def := mkDefinitionCfg (Some (TypeStr "*")) (Some []) in
    let* d := EventDefinition.init event_def in
    Ok (mk (definitions ++ [d]))
  else Ok (mk definitions).

(** The [for d in self.definitions] loop with its [break]. *)
Fixpoint first_match (definitions : list EventDefinition.t) (event_type : json)
  : result (option EventDefinition.t) :=
  match definitions with
  | [] => Ok None
  | d :: rest =>
      let* m := EventDefinition.match_type d event_type in
      if m then Ok (Some d) else first_match rest event_type
  end.

Section WithRuntime.
Context `{Runtime}.

Definition to_event (self : t) (now : datetime) (notification_body : gmap string json)
  : result (option Event) :=
  let* event_type := dict_item notification_body "event_type" in
  let* message_id := dict_item notification_body "message_id" in
  let* edef := first_match (definitions self) event_type in
  match edef with
  | None => Ok None
  | Some edef =>
      let* ev := EventDefinition.to_event edef now notification_body in
      Ok (Some ev)
  end.
End WithRuntime.

(** [setup_events] when no configuration file is found. *)
Definition setup_events_default (allow_drop : bool) : result t :=
  init [] (negb allow_drop).

End NotificationEventsConverter.

(** ** Shell-glob matching, as the specification words it

    [*] matches any run of characters, [?] a single character, any other
    character itself. *)

Inductive glob_matches : list ascii -> list ascii -> Prop :=
| glob_nil : glob_matches [] []
| glob_star p s1 s2 :
    glob_matches p s2 -> glob_matches ("*"%char :: p) (s1 ++ s2)
| glob_any p c s :
    glob_matches p s -> glob_matches ("?"%char :: p) (c :: s)
| glob_lit p c s :
    c <> "*"%char -> c <> "?"%char ->
    glob_matches p s -> glob_matches (c :: p) (c :: s).

Definition bracket_free (pat : string) : Prop :=
  "["%char ∉ list_ascii_of_string pat.

(** The first value that is not null, if any. *)
Definition first_non_null (vs : list json) : option json :=
  head (filter (fun v => is_null v = false) vs).

(** A notification as the collector hands it over: an [event_type] string
    and a [message_id]. *)
Definition well_formed (body : gmap string json) (event_type : string) : Prop :=
  body !! "event_type" = Some (JStr event_type) /\ is_Some (body !! "message_id").

(** A runtime to evaluate the converter on examples: a timestamp is kept
    as its text and must start with a digit, a float is read from an
    integer literal. *)
Definition demo_parse_isotime (v : json) : result string :=
  match v with
  | JStr (String c s) =>
      if (48 <=? nat_of_ascii c)%nat && (nat_of_ascii c <=? 57)%nat
      then Ok (String c s) else Raise ValueError
  | _ => Raise ValueError
  end.

Definition demo_py_str (v : json) : string :=
  match v with
  | JStr s => s
  | JInt z => pretty z
  | JBool b => if b then "True" else "False"
  | JNull => "None"
  | _ => "?"
  end.

Definition demo_py_float (v : json) : result (Z * Z) :=
  match v with
  | JFloat m e => Ok (m, e)
  | JStr _ | JInt _ | JBool _ => let* z := py_int v in Ok (z, 0%Z)
  | _ => Raise TypeError
  end.

#[local] Instance demo_runtime : Runtime := {|
  datetime := string;
  py_str := demo_py_str;
  py_float := demo_py_float;
  parse_isotime := demo_parse_isotime;
  normalize_time := fun d => d
|}.

(** What one trait definition yields on a body: nothing when the path
    finds no non-null value, else the conversion of the first one. *)
Definition trait_outcome `{Runtime} (td : TraitDefinition.t)
    (body : gmap string json) (o : option Trait) : Prop :=
  match first_non_null (find (TraitDefinition.fields td) (JDict body)) with
  | None => o = None
  | Some v =>
      is_null v = false /\
      exists x, TraitDefinition._convert_value (TraitDefinition.trait_type td) v = Ok x /\
        o = Some (mkTrait (TraitDefinition.name td) (TraitDefinition.trait_type td) x)
  end.

(** The notification and the rule of the converter's tests. *)
Definition test_notification1 : gmap string json :=
  list_to_map
    [ ("event_type", JStr "compute.instance.create.start");
      ("message_id", JStr "uuid-for-notif-0001");
      ("priority", JStr "INFO");
      ("publisher_id", JStr "compute.host-1-2-3");
      ("timestamp", JStr "2013-08-08 21:06:37.803826");
      ("payload", JDict (list_to_map
         [ ("instance_id", JStr "uuid-for-instance-0001");
           ("instance_uuid2", JNull);
           ("disk_gb", JStr "20");
           ("host", JStr "host-1-2-3") ])) ].

Definition payload_path (key : string) : JSONPath :=
  Child (Fields ["payload"]) (Fields [key]).

Definition valid_event_def1 : definition_cfg :=
  mkDefinitionCfg
    (Some (TypeStr "compute.instance.create.*"))
    (Some
       [ ("instance_id",
          mkTraitCfg (Some "text")
            (Some (FieldsList [payload_path "instance_uuid"; payload_path "instance_id"])));
         ("host", mkTraitCfg (Some "text") (Some (FieldsStr (payload_path "host")))) ]).

(** A rule whose [int] trait reads a field that holds no number. *)
Definition int_host_def : definition_cfg :=
  mkDefinitionCfg
    (Some (TypeStr "compute.instance.*"))
    (Some [ ("host", mkTraitCfg (Some "int") (Some (FieldsStr (payload_path "host")))) ]).

(** The value of a construction that succeeded. *)
Definition from_ok {A} (dflt : A) (r : result A) : A :=
  match r with
  | Ok a => a
  | Raise _ => dflt
  end.

Definition rule_of (cfg : definition_cfg) : EventDefinition.t :=
  from_ok (EventDefinition.mk [] [] [] cfg) (EventDefinition.init cfg).

Definition int_host_rule : EventDefinition.t := rule_of int_host_def.

(** A broad rule, to be declared before a narrow one. *)
Definition broad_def : definition_cfg :=
  mkDefinitionCfg (Some (TypeStr "compute.*")) (Some []).

(** ** Notions used to state further properties *)

(** [d[k]] on a dict of trait definitions ([self.traits[t]]). *)
Fixpoint dict_lookup {V} (k : string) (d : list (string * V)) : option V :=
  match d with
  | [] => None
  | (k', v) :: d' => if String.eqb k k' then Some v else dict_lookup k d'
  end.

(** The rule [dict(event_type='*', traits={})] that [__init__] of the
    converter appends. *)
Definition catchall_def : definition_cfg :=
  mkDefinitionCfg (Some (TypeStr "*")) (Some []).

(** A pattern without any of the characters [*], [?] and the opening
    bracket. *)
Definition literal_chars (p : list ascii) : Prop :=
  Forall (fun c => c <> "*"%char /\ c <> "?"%char /\ c <> "["%char) p.

Definition literal_pattern (pat : string) : Prop :=
  literal_chars (list_ascii_of_string pat).

(** What [jsonpath_rw.parse] returns for the dotted expression
    [k.k1.k2...]: children nested to the left. *)
Definition dotted_path (k : string) (ks : list string) : JSONPath :=
  fold_left (fun p k' => Child p (Fields [k'])) ks (Fields [k]).

(** The value under the nested keys [ks] of a document, if every key on
    the way is there. *)
Fixpoint get_path (ks : list string) (v : json) : option json :=
  match ks with
  | [] => Some v
  | k :: ks' =>
      match v with
      | JDict d =>
          match d !! k with
          | Some v' => get_path ks' v'
          | None => None
          end
      | _ => None
      end
  end.

(** The notification field each default trait reads. *)
Definition default_sources : list (string * string) :=
  [ ("message_id", "message_id"); ("service", "publisher_id");
    ("request_id", "_context_request_id"); ("tenant_id", "_context_tenant") ].

(** A rule that redefines a default trait and adds one. *)
Definition override_def : definition_cfg :=
  mkDefinitionCfg
    (Some (TypeList ["compute.instance.*"; "!compute.instance.exists"]))
    (Some
       [ ("service", mkTraitCfg (Some "text") (Some (FieldsStr (payload_path "host"))));
         ("disk_gb", mkTraitCfg (Some "int") (Some (FieldsStr (payload_path "disk_gb")))) ]).

(** The trait definition a configuration entry builds. *)
Definition rule_trait (name : string) (c : trait_cfg) : TraitDefinition.t :=
  from_ok (TraitDefinition.mk c name This TEXT_TYPE) (TraitDefinition.init name c).

(** The definitions of the four default traits, as [__init__] builds
    them from [DEFAULT_TRAITS]. *)
Definition default_definitions : list (string * TraitDefinition.t) :=
  map (fun nc : string * trait_cfg =>
         (nc.1, rule_trait nc.1 nc.2)) EventDefinition.DEFAULT_TRAITS.

(** A rule whose second trait names a type that does not exist. *)
Definition bogus_type_def : definition_cfg :=
  mkDefinitionCfg (Some (TypeStr "test.thing"))
    (Some [ ("host", mkTraitCfg (Some "text") (Some (FieldsStr (payload_path "host"))));
            ("bogus", mkTraitCfg (Some "bogus") (Some (FieldsStr (payload_path "test")))) ]).

(** The event the overriding rule makes of the test notification. *)
Definition test_event1 : Event :=
  from_ok (mkEvent JNull "" [])
    (EventDefinition.to_event (rule_of override_def) "2026-01-01 00:00:00" test_notification1).

(** A rule for image notifications only. *)
Definition image_def : definition_cfg :=
  mkDefinitionCfg (Some (TypeStr "image.*")) (Some []).

(** The event the rule of the tests makes of the test notification. *)
Definition test_event2 : Event :=
  from_ok (mkEvent JNull "" [])
    (EventDefinition.to_event (rule_of valid_event_def1) "2026-01-01 00:00:00"
       test_notification1).

(** * Properties *)

Example fnmatch_ex1 : fnmatch "compute.instance.create.start" "compute.instance.*" = true.
Proof. reflexivity. Qed.
Example fnmatch_ex2 : fnmatch "image.upload" "compute.instance.*" = false.
Proof. reflexivity. Qed.
Example fnmatch_ex3 : fnmatch "compute.instance.create.start" "*.start" = true.
Proof. reflexivity. Qed.
Example fnmatch_ex4 : fnmatch "abc" "[!x-z]b[a-c]" = true.
Proof. reflexivity. Qed.
Example fnmatch_ex5 : fnmatch "a[" "?[" = true.
Proof. reflexivity. Qed.
Example fnmatch_ex6 : fnmatch "]" "[]]" = true.
Proof. reflexivity. Qed.
Example fnmatch_ex7 : fnmatch "image.upload" "image.*" = true.
Proof. reflexivity. Qed.
Example py_int_10 : py_int (JStr "10") = Ok 10%Z.
Proof. reflexivity. Qed.
Example py_int_neg : py_int (JStr " -42 ") = Ok (-42)%Z.
Proof. reflexivity. Qed.
Example py_int_bad : py_int (JStr "ten") = Raise ValueError.
Proof. reflexivity. Qed.

(** The cases of the tests of [is_catchall]. *)
Example catchall_cases :
  map (fun et => EventDefinition.is_catchall
                   (rule_of (mkDefinitionCfg (Some (TypeList et)) (Some []))))
    [ ["*.thing"; "!test.thing"; "!other.thing"]; ["!other.thing"]; ["other.thing"];
      ["*"; "!other.thing"]; ["*"]; ["*"; "foo"] ] =
  [false; false; false; false; true; true].
Proof. reflexivity. Qed.

(** The mixed list of the documentation. *)
Example mixed_list_cases :
  map (EventDefinition.match_type
         (rule_of (mkDefinitionCfg (Some (TypeList ["*.start"; "*.end"; "!scheduler.*"]))
                     (Some []))))
    [ JStr "compute.instance.create.start"; JStr "image.delete.end";
      JStr "compute.instance.exists"; JStr "scheduler.run_instance.start" ] =
  [Ok true; Ok true; Ok false; Ok false].
Proof. reflexivity. Qed.

(** The converter of the tests, with and without the catch-all. *)
Example converter_with_catchall :
  exists conv ev,
    NotificationEventsConverter.init [valid_event_def1] true = Ok conv /\
    length (NotificationEventsConverter.definitions conv) = 2 /\
    NotificationEventsConverter.to_event conv "2026-01-01 00:00:00" test_notification1
      = Ok (Some ev) /\
    map trait_name (traits ev) = ["message_id"; "service"; "instance_id"; "host"] /\
    generated ev = "2013-08-08 21:06:37.803826".
Proof. eexists. eexists. repeat split. Qed.

Example converter_without_catchall :
  exists conv,
    NotificationEventsConverter.init [valid_event_def1] false = Ok conv /\
    length (NotificationEventsConverter.definitions conv) = 1 /\
    NotificationEventsConverter.to_event conv "2026-01-01 00:00:00"
      (<["event_type" := JStr "bogus.notification.from.mars"]> test_notification1)
      = Ok None.
Proof. eexists. repeat split. Qed.

Example converter_empty_cfg_with_catchall :
  exists conv ev,
    NotificationEventsConverter.init [] true = Ok conv /\
    NotificationEventsConverter.to_event conv "2026-01-01 00:00:00" test_notification1
      = Ok (Some ev) /\
    map trait_name (traits ev) = ["message_id"; "service"].
Proof. eexists. eexists. repeat split. Qed.

(** ** The glob matcher *)

Lemma star_unfold ts s :
  toks_match (GStar :: ts) s =
  toks_match ts s || match s with [] => false | _ :: s' => toks_match (GStar :: ts) s' end.
Proof. destruct s; reflexivity. Qed.

Lemma toks_match_star ts s :
  toks_match (GStar :: ts) s = true <->
  exists s1 s2, s = s1 ++ s2 /\ toks_match ts s2 = true.
Proof.
  induction s as [|c s IH]; rewrite star_unfold.
  - rewrite orb_false_r. split.
    + intros Hm. exists [], []. auto.
    + intros (s1 & s2 & Heq & Hm).
      symmetry in Heq. apply app_eq_nil in Heq as [_ ->]. exact Hm.
  - rewrite orb_true_iff, IH. split.
    + intros [Hm | (s1 & s2 & -> & Hm)].
      * exists [], (c :: s). auto.
      * exists (c :: s1), s2. auto.
    + intros (s1 & s2 & Heq & Hm). destruct s1 as [|c' s1]; simpl in Heq.
      * left. subst s2. exact Hm.
      * right. injection Heq as -> ->. eauto.
Qed.

Lemma fnmatch_star name : fnmatch name "*" = true.
Proof.
  unfold fnmatch. change (translate "*") with [GStar].
  apply toks_match_star. exists (list_ascii_of_string name), [].
  split; [by rewrite app_nil_r | reflexivity].
Qed.

Lemma translate_bracket_free p :
  "["%char ∉ p ->
  translate_from 0 p =
  map (fun c => if Ascii.eqb c "*" then GStar
                else if Ascii.eqb c "?" then GAny else GLit c) p.
Proof.
  induction p as [|c p IH]; intros Hfree; [reflexivity|].
  apply not_elem_of_cons in Hfree as [Hc Hp]. simpl.
  destruct (Ascii.eqb c "*") eqn:E1; [by rewrite IH|].
  destruct (Ascii.eqb c "?") eqn:E2; [by rewrite IH|].
  destruct (Ascii.eqb c "[") eqn:E3.
  - apply Ascii.eqb_eq in E3. congruence.
  - by rewrite IH.
Qed.

Lemma toks_match_glob p : 
  "["%char ∉ p ->
  forall s, toks_match (translate_from 0 p) s = true <-> glob_matches p s.
Proof.
  induction p as [|c p IH]; intros Hfree s.
  - simpl. split.
    + destruct s; [constructor | discriminate].
    + inversion 1. reflexivity.
  - pose proof Hfree as Hfree'.
    apply not_elem_of_cons in Hfree' as [Hc Hp].
    rewrite translate_bracket_free by assumption. cbn [map].
    rewrite <- translate_bracket_free by assumption.
    destruct (Ascii.eqb c "*") eqn:E1.
    { apply Ascii.eqb_eq in E1 as ->. rewrite toks_match_star. split.
      - intros (s1 & s2 & -> & Hm). constructor. by apply IH.
      - inversion 1; subst; [|congruence]. eexists _, _. split; [reflexivity|]. by apply IH. }
    destruct (Ascii.eqb c "?") eqn:E2.
    { apply Ascii.eqb_eq in E2 as ->. destruct s as [|c' s]; simpl.
      - split; [discriminate | inversion 1].
      - rewrite IH by assumption. split.
        + by constructor.
        + inversion 1; subst; solve [assumption | congruence]. }
    apply Ascii.eqb_neq in E1, E2.
    destruct s as [|c' s]; simpl.
    + split; [discriminate | inversion 1; subst; congruence].
    + rewrite andb_true_iff, Ascii.eqb_eq, IH by assumption. split.
      * intros [-> Hm]. by constructor.
      * inversion 1; subst; try congruence. auto.
Qed.

Lemma fnmatch_glob name pat :
  bracket_free pat ->
  fnmatch name pat = true <->
  glob_matches (list_ascii_of_string pat) (list_ascii_of_string name).
Proof. intros Hfree. by apply toks_match_glob. Qed.

(** ** Type matching *)

Lemma any_fnmatch_str s types :
  EventDefinition.any_fnmatch (JStr s) types = Ok (existsb (fnmatch s) types).
Proof.
  induction types as [|t types IH]; [reflexivity|]. simpl.
  destruct (fnmatch s t); [reflexivity | exact IH].
Qed.

Lemma match_type_str self s :
  EventDefinition.match_type self (JStr s) =
  Ok (existsb (fnmatch s) (EventDefinition._included_types self) &&
      negb (existsb (fnmatch s) (EventDefinition._excluded_types self))).
Proof.
  unfold EventDefinition.match_type, EventDefinition.included_type, EventDefinition.excluded_type.
  rewrite !any_fnmatch_str. simpl.
  destruct (existsb _ (EventDefinition._included_types self)); reflexivity.
Qed.

Lemma existsb_elem_of {A} (f : A -> bool) (l : list A) :
  existsb f l = true <-> exists x, x ∈ l /\ f x = true.
Proof.
  rewrite existsb_exists. split; intros (x & Hx & Hf); exists x; split; auto;
    by apply list_elem_of_In.
Qed.

Lemma existsb_false_elem_of {A} (f : A -> bool) (l : list A) :
  existsb f l = false <-> forall x, x ∈ l -> f x = false.
Proof.
  induction l as [|a l IH]; simpl.
  - split; [intros _ x Hx; inversion Hx | auto].
  - rewrite orb_false_iff, IH. split.
    + intros [Ha Hl] x Hx. apply elem_of_cons in Hx as [-> | Hx]; auto.
    + intros Hall. split; [apply Hall; left | intros x Hx; apply Hall; by right].
Qed.

(** C3.  A candidate string is accepted exactly when some include pattern
    matches it and no exclude pattern does; on patterns without a bracket
    expression, matching is the shell glob of [*] (any run of characters),
    [?] (one character) and literal characters; the examples of the
    documentation hold. *)
Theorem match_type_glob (self : EventDefinition.t) (candidate : string) :
  (exists b, EventDefinition.match_type self (JStr candidate) = Ok b /\
     (b = true <->
      (exists p, p ∈ EventDefinition._included_types self /\ fnmatch candidate p = true) /\
      (forall p, p ∈ EventDefinition._excluded_types self -> fnmatch candidate p = false))) /\
  (forall pat, bracket_free pat ->
     (fnmatch candidate pat = true <->
      glob_matches (list_ascii_of_string pat) (list_ascii_of_string candidate))) /\
  fnmatch "compute.instance.create.start" "compute.instance.*" = true /\
  fnmatch "image.upload" "compute.instance.*" = false /\
  fnmatch "compute.instance.create.start" "*.start" = true.
Proof.
  split; [|split; [|repeat split]].
  - eexists. split; [apply match_type_str|].
    rewrite andb_true_iff, negb_true_iff, existsb_elem_of, existsb_false_elem_of.
    reflexivity.
  - intros pat Hfree. by apply fnmatch_glob.
Qed.

Lemma match_type_glob_witness :
  (fnmatch "a.b" "a.?" = true <->
   glob_matches (list_ascii_of_string "a.?") (list_ascii_of_string "a.b")).
Proof.
  apply (match_type_glob (EventDefinition.mk ["a.?"] [] [] (mkDefinitionCfg None None)) "a.b").
  unfold bracket_free. apply (bool_decide_unpack _). vm_compute. exact I.
Defined.

Lemma is_catchall_spec (self : EventDefinition.t) :
  EventDefinition.is_catchall self = true <->
  "*" ∈ EventDefinition._included_types self /\ EventDefinition._excluded_types self = [].
Proof.
  unfold EventDefinition.is_catchall. rewrite andb_true_iff, bool_decide_eq_true.
  destruct (EventDefinition._excluded_types self); split; intros [? ?]; split; auto; discriminate.
Qed.

(** C2 (as amended).  [is_catchall] holds exactly when ["*"] is one of the
    include patterns and there is no exclude pattern. *)
Theorem is_catchall_iff (self : EventDefinition.t) :
  EventDefinition.is_catchall self = true <->
  "*" ∈ EventDefinition._included_types self /\ EventDefinition._excluded_types self = [].
Proof. apply is_catchall_spec. Qed.

(** C2 (as stated) fails: the include patterns ["*"] and ["foo"] together
    make a catch-all although the include set is not exactly [{"*"}]. *)
Lemma is_catchall_not_exact :
  exists self,
    EventDefinition.init (mkDefinitionCfg (Some (TypeList ["*"; "foo"])) (Some [])) = Ok self /\
    ~ (EventDefinition.is_catchall self = true <->
       (forall p, p ∈ EventDefinition._included_types self <-> p = "*") /\ EventDefinition._excluded_types self = []).
Proof.
  eexists. split; [reflexivity|]. intros [Hcatch _].
  destruct (Hcatch eq_refl) as [Hset _].
  assert (Hfoo : "foo" = "*") by (apply Hset; simpl; repeat constructor).
  discriminate Hfoo.
Qed.

(** ** Construction of the matcher *)

Lemma init_types cfg self :
  EventDefinition.init cfg = Ok self ->
  exists et, cfg_event_type cfg = Some et /\
    EventDefinition._excluded_types self = (EventDefinition.split_types (EventDefinition.type_entries et)).2 /\
    EventDefinition._included_types self =
      match (EventDefinition.split_types (EventDefinition.type_entries et)).2, (EventDefinition.split_types (EventDefinition.type_entries et)).1 with
      | _ :: _, [] => ["*"]
      | _, inc => inc
      end.
Proof.
  unfold EventDefinition.init. intros Hinit.
  destruct (cfg_event_type cfg) as [et|]; [|discriminate].
  destruct (cfg_traits cfg) as [tr|]; [|discriminate].
  exists et. split; [reflexivity|].
  destruct (EventDefinition.split_types (EventDefinition.type_entries et)) as [inc exc]. simpl.
  destruct (EventDefinition.add_traits EventDefinition.DEFAULT_TRAITS []) as [tr0|]; [|discriminate]. simpl in Hinit.
  destruct (EventDefinition.add_traits tr tr0) as [tr1|]; [|discriminate]. simpl in Hinit.
  injection Hinit as <-. simpl. split; [reflexivity|].
  destruct exc, inc; reflexivity.
Qed.

Lemma split_types_excluded (entries : list string) :
  Forall (fun t => EventDefinition.startswith_bang t = true) entries ->
  EventDefinition.split_types entries = ([], map EventDefinition.tail1 entries).
Proof.
  induction 1 as [|t entries Ht _ IH]; [reflexivity|].
  simpl. rewrite IH, Ht. reflexivity.
Qed.

(** C4.  An [event_type] whose entries are all exclusions, each a [!]
    followed by a pattern, gets the implicit ["*"] inclusion; the exclusion
    patterns are those patterns, and the matcher accepts exactly the strings
    that none of them matches. *)
Theorem exclusion_only_matches (event_type : event_type_cfg) (patterns : list string)
    (traits : list (string * trait_cfg)) (self : EventDefinition.t) :
  patterns <> [] ->
  EventDefinition.type_entries event_type = map (String "!"%char) patterns ->
  EventDefinition.init (mkDefinitionCfg (Some event_type) (Some traits)) = Ok self ->
  EventDefinition._included_types self = ["*"] /\
  EventDefinition._excluded_types self = patterns /\
  forall candidate,
    EventDefinition.match_type self (JStr candidate) = Ok true <->
    forall pat, pat ∈ patterns -> fnmatch candidate pat = false.
Proof.
  intros Hne Hentries Hinit.
  apply init_types in Hinit as (et & Het & Hexc & Hinc).
  simpl in Het. injection Het as <-.
  assert (Hall : Forall (fun t => EventDefinition.startswith_bang t = true)
                   (EventDefinition.type_entries event_type)).
  { rewrite Hentries. apply Forall_forall. intros t Ht.
    apply list_elem_of_fmap in Ht as (pat & -> & _). reflexivity. }
  rewrite split_types_excluded in Hexc, Hinc by assumption. simpl in Hexc, Hinc.
  assert (Hexc' : EventDefinition._excluded_types self = patterns).
  { rewrite Hexc, Hentries. clear. induction patterns as [|pat pats IH]; [reflexivity|].
    simpl. by rewrite IH. }
  assert (Hinc' : EventDefinition._included_types self = ["*"]).
  { rewrite Hinc, Hentries. destruct patterns; [congruence | reflexivity]. }
  split; [exact Hinc'|]. split; [exact Hexc'|].
  intros candidate. rewrite match_type_str, Hinc', Hexc'. simpl.
  rewrite fnmatch_star. simpl.
  split.
  - intros Heq. injection Heq as Heq. apply negb_true_iff in Heq.
    by apply existsb_false_elem_of.
  - intros Hno. f_equal. by apply negb_true_iff, existsb_false_elem_of.
Qed.

Lemma exclusion_only_matches_witness :
  exists self,
    EventDefinition.init (mkDefinitionCfg (Some (TypeStr "!image.*")) (Some [])) = Ok self /\
    EventDefinition._included_types self = ["*"] /\
    EventDefinition._excluded_types self = ["image.*"] /\
    EventDefinition.match_type self (JStr "image.upload") = Ok false /\
    (EventDefinition.match_type self (JStr "compute.instance.exists") = Ok true <->
     forall pat, pat ∈ ["image.*"] -> fnmatch "compute.instance.exists" pat = false).
Proof.
  eexists. split; [reflexivity|].
  edestruct (exclusion_only_matches (TypeStr "!image.*") ["image.*"] [])
    as (Hinc & Hexc & Hm); [ | | reflexivity | ].
  - discriminate.
  - reflexivity.
  - split; [exact Hinc|]. split; [exact Hexc|]. split; [reflexivity | apply Hm].
Defined.

(** ** When-extraction *)

Section WhenExtraction.
Context `{Runtime}.
Implicit Types (now : datetime) (body : gmap string json).

Lemma extract_when_timestamp now body v :
  body !! "timestamp" = Some v ->
  EventDefinition._extract_when now body =
  if truthy v then let* d := parse_isotime v in Ok (normalize_time d) else Ok now.
Proof.
  intros Hts. unfold EventDefinition._extract_when, dict_get_default.
  rewrite Hts. reflexivity.
Qed.

Lemma extract_when_context now body :
  body !! "timestamp" = None ->
  EventDefinition._extract_when now body =
  let v := dict_get body "_context_timestamp" in
  if truthy v then let* d := parse_isotime v in Ok (normalize_time d) else Ok now.
Proof.
  intros Hts. unfold EventDefinition._extract_when, dict_get_default.
  rewrite Hts. reflexivity.
Qed.


(** C10.  When the [timestamp] key is present, [_context_timestamp] has
    no influence at all; a null or empty value, at [timestamp] or (the key
    [timestamp] being absent) at [_context_timestamp], gives the current
    time. *)
Theorem extract_when_null_timestamp now body :
  (forall v c, body !! "timestamp" = Some v ->
     EventDefinition._extract_when now (<["_context_timestamp" := c]> body) =
     EventDefinition._extract_when now body) /\
  (forall v, body !! "timestamp" = Some v -> truthy v = false ->
     EventDefinition._extract_when now body = Ok now /\
     forall c, EventDefinition._extract_when now (<["_context_timestamp" := c]> body) = Ok now) /\
  (forall v, body !! "timestamp" = None ->
     body !! "_context_timestamp" = Some v -> truthy v = false ->
     EventDefinition._extract_when now body = Ok now) /\
  truthy JNull = false /\ truthy (JStr "") = false.
Proof.
  assert (Hins : forall v c, body !! "timestamp" = Some v ->
    EventDefinition._extract_when now (<["_context_timestamp" := c]> body) =
    EventDefinition._extract_when now body).
  { intros v c Hts.
    rewrite (extract_when_timestamp _ (<[_ := c]> body) v).
    - by rewrite (extract_when_timestamp _ body v).
    - rewrite lookup_insert_ne; [exact Hts | discriminate]. }
  split; [exact Hins|]. split; [|split; [|split; reflexivity]].
  - intros v Hts Hv.
    assert (Hnow : EventDefinition._extract_when now body = Ok now).
    { rewrite (extract_when_timestamp _ _ v), Hv; auto. }
    split; [exact Hnow|]. intros c. by rewrite (Hins v).
  - intros v Hts Hctx Hv. rewrite extract_when_context by assumption.
    unfold dict_get. rewrite Hctx. simpl. by rewrite Hv.
Qed.
End WhenExtraction.


Lemma extract_when_null_timestamp_witness :
  EventDefinition._extract_when "2026-01-01 00:00:00"
    (<["timestamp" := JNull]> test_notification1) = Ok "2026-01-01 00:00:00" /\
  forall c,
    EventDefinition._extract_when "2026-01-01 00:00:00"
      (<["_context_timestamp" := c]> (<["timestamp" := JNull]> test_notification1)) =
    Ok "2026-01-01 00:00:00".
Proof.
  exact (proj1 (proj2 (extract_when_null_timestamp (H := demo_runtime) "2026-01-01 00:00:00"
                         (<["timestamp" := JNull]> test_notification1)))
           JNull eq_refl eq_refl).
Defined.

(** ** Trait extraction *)

Lemma find_fold_union ps p datum :
  find (fold_left Union ps p) datum =
  find p datum ++ concat (map (fun q => find q datum) ps).
Proof.
  revert p. induction ps as [|q ps IH]; intros p; simpl.
  - by rewrite app_nil_r.
  - rewrite IH. simpl. by rewrite <- app_assoc.
Qed.

Lemma init_fields_list name cfg ps self :
  cfg_fields cfg = Some (FieldsList ps) ->
  TraitDefinition.init name cfg = Ok self ->
  forall datum,
    find (TraitDefinition.fields self) datum = concat (map (fun p => find p datum) ps).
Proof.
  unfold TraitDefinition.init. intros -> Hinit datum.
  destruct ps as [|p ps]; [discriminate|].
  assert (Hpath : exists path,
    (match ps with [] => Ok p | _ :: _ => Ok (fold_left Union ps p) end) = Ok path /\
    find path datum = find p datum ++ concat (map (fun q => find q datum) ps)).
  { destruct ps as [|q ps].
    - exists p. split; [reflexivity|]. simpl. by rewrite app_nil_r.
    - eexists. split; [reflexivity|]. apply find_fold_union. }
  destruct Hpath as (path & Hpath & Hfind).
  rewrite Hpath in Hinit. simpl in Hinit.
  destruct (trait_type_of _); [|discriminate].
  injection Hinit as <-. exact Hfind.
Qed.

Section TraitExtraction.
Context `{Runtime}.
Implicit Types (now : datetime) (body : gmap string json).

Lemma first_non_null_values td body :
  first_non_null (find (TraitDefinition.fields td) (JDict body)) =
  head (TraitDefinition.values td body).
Proof. reflexivity. Qed.

Lemma first_non_null_not_null vs v :
  first_non_null vs = Some v -> is_null v = false /\ v ∈ vs.
Proof.
  unfold first_non_null. intros Hhd.
  assert (Hin : v ∈ filter (fun v => is_null v = false) vs).
  { destruct (filter _ vs); [discriminate|]. injection Hhd as ->. left. }
  apply list_elem_of_filter in Hin. exact Hin.
Qed.

Lemma first_non_null_none vs :
  first_non_null vs = None <-> Forall (fun v => v = JNull) vs.
Proof.
  unfold first_non_null. induction vs as [|v vs IH]; simpl.
  - split; [constructor | reflexivity].
  - rewrite filter_cons. destruct v; simpl;
      try (split; [discriminate | inversion 1; discriminate]).
    rewrite IH. split; [by constructor | by inversion 1].
Qed.

Lemma to_trait_spec td body :
  TraitDefinition.to_trait td body =
  match first_non_null (find (TraitDefinition.fields td) (JDict body)) with
  | None => Ok None
  | Some v =>
      let* x := TraitDefinition._convert_value (TraitDefinition.trait_type td) v in
      Ok (Some (mkTrait (TraitDefinition.name td) (TraitDefinition.trait_type td) x))
  end.
Proof.
  unfold TraitDefinition.to_trait. rewrite first_non_null_values.
  destruct (TraitDefinition.values td body); reflexivity.
Qed.

Lemma to_trait_outcome td body o :
  TraitDefinition.to_trait td body = Ok o -> trait_outcome td body o.
Proof.
  rewrite to_trait_spec. unfold trait_outcome.
  destruct (first_non_null _) as [v|] eqn:Hv.
  - apply first_non_null_not_null in Hv as [Hv _]. intros Hconv.
    split; [exact Hv|].
    destruct (TraitDefinition._convert_value _ v) as [x|]; [|discriminate].
    exists x. split; [reflexivity|]. by injection Hconv as <-.
  - by intros [= <-].
Qed.

Lemma collect_traits_spec tds body trs :
  EventDefinition.collect_traits tds body = Ok trs ->
  exists outs,
    Forall2 (fun ntd o => TraitDefinition.to_trait ntd.2 body = Ok o) tds outs /\
    trs = omap id outs.
Proof.
  revert trs. induction tds as [|[n td] tds IH]; intros trs; simpl.
  - intros [= <-]. exists []. split; [constructor | reflexivity].
  - destruct (TraitDefinition.to_trait td body) as [o|] eqn:Ho; [|discriminate]. simpl.
    destruct (EventDefinition.collect_traits tds body) as [trs'|]; [|discriminate]. simpl.
    intros [= <-]. destruct (IH trs' eq_refl) as (outs & Hall & ->).
    exists (o :: outs). split; [by constructor|]. by destruct o.
Qed.

Lemma to_event_inv self now body ev :
  EventDefinition.to_event self now body = Ok ev ->
  exists et when trs,
    body !! "event_type" = Some et /\
    EventDefinition._extract_when now body = Ok when /\
    EventDefinition.collect_traits (EventDefinition.traits self) body = Ok trs /\
    ev = mkEvent et when trs.
Proof.
  unfold EventDefinition.to_event, dict_item.
  destruct (body !! "event_type") as [et|]; [|discriminate]. simpl.
  destruct (EventDefinition._extract_when now body) as [when|]; [|discriminate]. simpl.
  destruct (EventDefinition.collect_traits _ body) as [trs|]; [|discriminate]. simpl.
  intros [= <-]. eauto 10.
Qed.

(** C5.  The traits of a produced event are, in the order of the rule's
    trait definitions, the conversions of the first non-null value each
    definition's path finds; a definition whose path finds no non-null
    value contributes no trait.  The alternatives of a [fields] list are
    searched in the order they are declared. *)
Theorem to_event_traits_non_null (self : EventDefinition.t) now body (ev : Event) :
  EventDefinition.to_event self now body = Ok ev ->
  (exists outs : list (option Trait),
     traits ev = omap id outs /\
     Forall2 (fun ntd o => trait_outcome ntd.2 body o) (EventDefinition.traits self) outs) /\
  (forall tr, tr ∈ traits ev ->
     exists ntd v,
       ntd ∈ EventDefinition.traits self /\
       first_non_null (find (TraitDefinition.fields ntd.2) (JDict body)) = Some v /\
       is_null v = false /\
       TraitDefinition._convert_value (TraitDefinition.trait_type ntd.2) v = Ok (value tr) /\
       trait_name tr = TraitDefinition.name ntd.2) /\
  (forall name cfg ps td,
     cfg_fields cfg = Some (FieldsList ps) ->
     TraitDefinition.init name cfg = Ok td ->
     first_non_null (find (TraitDefinition.fields td) (JDict body)) =
     first_non_null (concat (map (fun p => find p (JDict body)) ps))) /\
  (forall td,
     TraitDefinition.to_trait td body =
     match first_non_null (find (TraitDefinition.fields td) (JDict body)) with
     | None => Ok None
     | Some v =>
         let* x := TraitDefinition._convert_value (TraitDefinition.trait_type td) v in
         Ok (Some (mkTrait (TraitDefinition.name td) (TraitDefinition.trait_type td) x))
     end).
Proof.
  intros Hev.
  apply to_event_inv in Hev as (et & when & trs & _ & _ & Htrs & ->).
  apply collect_traits_spec in Htrs as (outs & Hall & ->).
  assert (Hout : Forall2 (fun ntd o => trait_outcome ntd.2 body o)
                   (EventDefinition.traits self) outs).
  { eapply Forall2_impl; [exact Hall|]. intros ntd o. apply to_trait_outcome. }
  split; [|split; [|split]].
  - exists outs. split; [reflexivity | exact Hout].
  - simpl. intros tr Htr.
    apply list_elem_of_omap in Htr as (o & Ho & Hid). simpl in Hid. subst o.
    apply list_elem_of_lookup in Ho as [i Hi].
    destruct (Forall2_lookup_r _ _ _ _ _ Hout Hi) as (ntd & Hntd & Hoc).
    unfold trait_outcome in Hoc.
    destruct (first_non_null _) as [v|] eqn:Hfirst; [|discriminate].
    destruct Hoc as (Hv & x & Hx & [= ->]).
    exists ntd, v. split; [by eapply list_elem_of_lookup_2|]. auto.
  - intros name cfg ps td Hps Hinit.
    by rewrite (init_fields_list _ _ _ _ Hps Hinit).
  - intros td. apply to_trait_spec.
Qed.
End TraitExtraction.

Lemma to_event_traits_non_null_witness :
  exists (self : EventDefinition.t) (ev : Event),
    EventDefinition.init valid_event_def1 = Ok self /\
    EventDefinition.to_event self "2026-01-01 00:00:00" test_notification1 = Ok ev /\
    exists outs : list (option Trait),
      traits ev = omap id outs /\
      Forall2 (fun ntd o => trait_outcome ntd.2 test_notification1 o)
        (EventDefinition.traits self) outs.
Proof.
  eexists. eexists. split; [reflexivity|]. split; [reflexivity|].
  refine (proj1 (to_event_traits_non_null (H := demo_runtime) _ "2026-01-01 00:00:00"
                   test_notification1 _ _)).
  reflexivity.
Defined.

(** ** Conversion errors *)

Section ConversionErrors.
Context `{Runtime}.
Implicit Types (now : datetime) (body : gmap string json).

Lemma collect_traits_raise pre n td post body e :
  TraitDefinition.to_trait td body = Raise e ->
  (forall trs, EventDefinition.collect_traits (pre ++ (n, td) :: post) body <> Ok trs) /\
  (Forall (fun ntd => is_ok (TraitDefinition.to_trait ntd.2 body)) pre ->
   EventDefinition.collect_traits (pre ++ (n, td) :: post) body = Raise e).
Proof.
  intros Hraise. induction pre as [|[n' td'] pre [IH1 IH2]]; simpl.
  - rewrite Hraise. simpl. split; [discriminate | reflexivity].
  - split.
    + intros trs. destruct (TraitDefinition.to_trait td' body); [|discriminate]. simpl.
      destruct (EventDefinition.collect_traits _ body) as [trs'|] eqn:Hc; [|discriminate].
      by destruct (IH1 trs').
    + intros Hok. apply Forall_cons in Hok as [[o Ho] Hok]. simpl in Ho.
      rewrite Ho. simpl. by rewrite IH2.
Qed.

Lemma converter_to_event_selected (conv : NotificationEventsConverter.t) now body et mid self :
  body !! "event_type" = Some et ->
  body !! "message_id" = Some mid ->
  NotificationEventsConverter.first_match (NotificationEventsConverter.definitions conv) et
    = Ok (Some self) ->
  NotificationEventsConverter.to_event conv now body =
  let* ev := EventDefinition.to_event self now body in Ok (Some ev).
Proof.
  intros Het Hmid Hsel. unfold NotificationEventsConverter.to_event, dict_item.
  rewrite Het, Hmid. simpl. rewrite Hsel. reflexivity.
Qed.

(** C8.  For an [int] trait the first non-null value goes through
    [int()], which reads a string as a base-10 literal.  When that raises,
    the trait is not skipped: [to_trait] raises, no event comes out of the
    rule's [to_event] nor of the converter's, and when nothing raised
    before it, the error that comes out is that very one. *)
Theorem int_trait_error_propagates (self : EventDefinition.t)
    (conv : NotificationEventsConverter.t) now body pre n td post v :
  EventDefinition.traits self = pre ++ (n, td) :: post ->
  TraitDefinition.trait_type td = INT_TYPE ->
  first_non_null (find (TraitDefinition.fields td) (JDict body)) = Some v ->
  TraitDefinition.to_trait td body =
    (let* z := py_int v in Ok (Some (mkTrait (TraitDefinition.name td) INT_TYPE (VInt z)))) /\
  (forall s, v = JStr s ->
     py_int v = match parse_int s with Some z => Ok z | None => Raise ValueError end) /\
  (forall e, py_int v = Raise e ->
     TraitDefinition.to_trait td body = Raise e /\
     (forall ev, EventDefinition.to_event self now body <> Ok ev) /\
     (forall et,
        body !! "event_type" = Some et ->
        NotificationEventsConverter.first_match
          (NotificationEventsConverter.definitions conv) et = Ok (Some self) ->
        forall r, NotificationEventsConverter.to_event conv now body <> Ok r) /\
     (forall et mid,
        body !! "event_type" = Some et ->
        body !! "message_id" = Some mid ->
        is_ok (EventDefinition._extract_when now body) ->
        Forall (fun ntd => is_ok (TraitDefinition.to_trait ntd.2 body)) pre ->
        EventDefinition.to_event self now body = Raise e /\
        (NotificationEventsConverter.first_match
           (NotificationEventsConverter.definitions conv) et = Ok (Some self) ->
         NotificationEventsConverter.to_event conv now body = Raise e))).
Proof.
  intros Htraits Hint Hfirst.
  assert (Htrait : TraitDefinition.to_trait td body =
    (let* z := py_int v in Ok (Some (mkTrait (TraitDefinition.name td) INT_TYPE (VInt z))))).
  { rewrite to_trait_spec, Hfirst, Hint. simpl. by destruct (py_int v). }
  split; [exact Htrait|]. split; [by intros s ->|].
  intros e He. rewrite He in Htrait. simpl in Htrait.
  destruct (collect_traits_raise pre n td post body e Htrait) as [Hnone Hexact].
  assert (Hrule : forall ev, EventDefinition.to_event self now body <> Ok ev).
  { intros ev Hev. apply to_event_inv in Hev as (? & ? & trs & _ & _ & Htrs & _).
    rewrite Htraits in Htrs. by destruct (Hnone trs). }
  split; [exact Htrait|]. split; [exact Hrule|]. split.
  - intros et Het Hsel r. unfold NotificationEventsConverter.to_event, dict_item.
    rewrite Het. simpl. destruct (body !! "message_id"); [|discriminate]. simpl.
    rewrite Hsel. simpl.
    destruct (EventDefinition.to_event self now body) as [ev|] eqn:Hev; [|discriminate].
    by destruct (Hrule ev).
  - intros et mid Het Hmid [when Hwhen] Hpre.
    assert (Hraise : EventDefinition.to_event self now body = Raise e).
    { unfold EventDefinition.to_event, dict_item. rewrite Het. simpl.
      rewrite Hwhen. simpl. rewrite Htraits, (Hexact Hpre). reflexivity. }
    split; [exact Hraise|]. intros Hsel.
    rewrite (converter_to_event_selected conv now body et mid self) by assumption.
    by rewrite Hraise.
Qed.
End ConversionErrors.

Lemma int_trait_error_propagates_witness :
  NotificationEventsConverter.to_event (NotificationEventsConverter.mk [int_host_rule])
    "2026-01-01 00:00:00" test_notification1 = Raise ValueError.
Proof.
  destruct (int_trait_error_propagates (H := demo_runtime) int_host_rule
              (NotificationEventsConverter.mk [int_host_rule])
              "2026-01-01 00:00:00" test_notification1
              (take 4 (EventDefinition.traits int_host_rule))
              "host"
              (TraitDefinition.mk
                 (mkTraitCfg (Some "int") (Some (FieldsStr (payload_path "host"))))
                 "host" (payload_path "host") INT_TYPE)
              [] (JStr "host-1-2-3") eq_refl eq_refl eq_refl)
    as (_ & _ & Herr).
  destruct (Herr ValueError eq_refl) as (_ & _ & _ & Hexact).
  destruct (Hexact (JStr "compute.instance.create.start") (JStr "uuid-for-notif-0001")
              eq_refl eq_refl) as [_ Hconv].
  - eexists. reflexivity.
  - repeat constructor; eexists; reflexivity.
  - exact (Hconv eq_refl).
Defined.

(** ** Rule selection *)

Section Conversion.
Context `{Runtime}.
Implicit Types (now : datetime) (body : gmap string json)
  (conv : NotificationEventsConverter.t).

Lemma first_match_app pre d post s :
  Forall (fun d' => EventDefinition.match_type d' (JStr s) = Ok false) pre ->
  EventDefinition.match_type d (JStr s) = Ok true ->
  NotificationEventsConverter.first_match (pre ++ d :: post) (JStr s) = Ok (Some d).
Proof.
  intros Hpre Hd. induction Hpre as [|d' pre Hd' _ IH]; simpl.
  - by rewrite Hd.
  - by rewrite Hd'.
Qed.

Lemma first_match_none defs s :
  NotificationEventsConverter.first_match defs (JStr s) = Ok None <->
  Forall (fun d => EventDefinition.match_type d (JStr s) = Ok false) defs.
Proof.
  induction defs as [|d defs IH]; simpl.
  - split; [constructor | reflexivity].
  - rewrite match_type_str. simpl.
    destruct (_ && _) eqn:Hm.
    + split; [discriminate|]. intros Hall. apply Forall_cons in Hall as [Hd _].
      rewrite match_type_str, Hm in Hd. discriminate.
    + rewrite IH. split.
      * intros Hall. constructor; [|exact Hall]. by rewrite match_type_str, Hm.
      * intros Hall. by apply Forall_cons in Hall as [_ ?].
Qed.

Lemma first_match_cases defs s :
  (exists pre d post,
     defs = pre ++ d :: post /\
     Forall (fun d' => EventDefinition.match_type d' (JStr s) = Ok false) pre /\
     EventDefinition.match_type d (JStr s) = Ok true) \/
  Forall (fun d => EventDefinition.match_type d (JStr s) = Ok false) defs.
Proof.
  induction defs as [|d defs IH].
  - right. constructor.
  - destruct (EventDefinition.match_type d (JStr s)) as [[|]|] eqn:Hd.
    + left. exists [], d, defs. split; [reflexivity|]. split; [constructor | exact Hd].
    + destruct IH as [(pre & d' & post & -> & Hpre & Hd') | Hall].
      * left. exists (d :: pre), d', post. split; [reflexivity|].
        split; [by constructor | exact Hd'].
      * right. by constructor.
    + rewrite match_type_str in Hd. discriminate.
Qed.

Lemma to_event_first_match conv now body et pre d post :
  well_formed body et ->
  NotificationEventsConverter.definitions conv = pre ++ d :: post ->
  Forall (fun d' => EventDefinition.match_type d' (JStr et) = Ok false) pre ->
  EventDefinition.match_type d (JStr et) = Ok true ->
  NotificationEventsConverter.to_event conv now body =
  let* ev := EventDefinition.to_event d now body in Ok (Some ev).
Proof.
  intros [Het [mid Hmid]] Hdefs Hpre Hd.
  apply (converter_to_event_selected conv now body (JStr et) mid d); auto.
  rewrite Hdefs. by apply first_match_app.
Qed.

Lemma to_event_no_match conv now body et :
  well_formed body et ->
  Forall (fun d => EventDefinition.match_type d (JStr et) = Ok false)
    (NotificationEventsConverter.definitions conv) ->
  NotificationEventsConverter.to_event conv now body = Ok None.
Proof.
  intros [Het [mid Hmid]] Hall. apply first_match_none in Hall.
  unfold NotificationEventsConverter.to_event, dict_item.
  rewrite Het, Hmid. simpl. by rewrite Hall.
Qed.

(** C1.  On a notification with an [event_type] string and a
    [message_id], the converter hands the notification to the first rule,
    in declaration order, whose matcher accepts the type, whatever rules
    follow it; when no rule accepts it the result is [None]; one of the
    two always applies. *)
Theorem convert_first_match conv now body et :
  well_formed body et ->
  (forall pre d post,
     NotificationEventsConverter.definitions conv = pre ++ d :: post ->
     Forall (fun d' => EventDefinition.match_type d' (JStr et) = Ok false) pre ->
     EventDefinition.match_type d (JStr et) = Ok true ->
     NotificationEventsConverter.to_event conv now body =
     let* ev := EventDefinition.to_event d now body in Ok (Some ev)) /\
  (Forall (fun d => EventDefinition.match_type d (JStr et) = Ok false)
     (NotificationEventsConverter.definitions conv) ->
   NotificationEventsConverter.to_event conv now body = Ok None) /\
  ((exists pre d post,
      NotificationEventsConverter.definitions conv = pre ++ d :: post /\
      Forall (fun d' => EventDefinition.match_type d' (JStr et) = Ok false) pre /\
      EventDefinition.match_type d (JStr et) = Ok true) \/
   Forall (fun d => EventDefinition.match_type d (JStr et) = Ok false)
     (NotificationEventsConverter.definitions conv)).
Proof.
  intros Hwf. split; [|split].
  - intros pre d post. by apply to_event_first_match.
  - by apply to_event_no_match.
  - apply first_match_cases.
Qed.
End Conversion.

Lemma convert_first_match_witness :
  NotificationEventsConverter.to_event
    (NotificationEventsConverter.mk [rule_of broad_def; rule_of valid_event_def1])
    "2026-01-01 00:00:00" test_notification1 =
  let* ev := EventDefinition.to_event (rule_of broad_def) "2026-01-01 00:00:00"
               test_notification1 in
  Ok (Some ev).
Proof.
  refine (proj1 (convert_first_match (H := demo_runtime)
                   (NotificationEventsConverter.mk [rule_of broad_def; rule_of valid_event_def1])
                   "2026-01-01 00:00:00" test_notification1
                   "compute.instance.create.start" _)
            [] (rule_of broad_def) [rule_of valid_event_def1] eq_refl _ eq_refl).
  - split; [reflexivity | eexists; reflexivity].
  - constructor.
Defined.

(** ** The catch-all rule and dropped notifications *)

Lemma build_definitions_nil : NotificationEventsConverter.build_definitions [] = Ok [].
Proof. reflexivity. Qed.

Lemma catchall_matches self s :
  EventDefinition.is_catchall self = true ->
  EventDefinition.match_type self (JStr s) = Ok true.
Proof.
  intros Hc. apply is_catchall_spec in Hc as [Hstar Hexc].
  rewrite match_type_str, Hexc. simpl. rewrite andb_true_r. f_equal.
  apply existsb_elem_of. exists "*". split; [exact Hstar | apply fnmatch_star].
Qed.

Lemma catchall_match_not_false self v :
  EventDefinition.is_catchall self = true ->
  EventDefinition.match_type self v <> Ok false.
Proof.
  intros Hc. destruct v; try (rewrite catchall_matches by assumption; discriminate);
    apply is_catchall_spec in Hc as [Hstar _];
    unfold EventDefinition.match_type, EventDefinition.included_type;
    destruct (EventDefinition._included_types self); (try by inversion Hstar); discriminate.
Qed.

Lemma first_match_catchall defs v :
  existsb EventDefinition.is_catchall defs = true ->
  NotificationEventsConverter.first_match defs v <> Ok None.
Proof.
  induction defs as [|d defs IH]; simpl; [discriminate|].
  intros Hex. destruct (EventDefinition.match_type d v) as [[|]|] eqn:Hm; simpl;
    try discriminate.
  destruct (EventDefinition.is_catchall d) eqn:Hd; simpl in Hex.
  - by destruct (catchall_match_not_false d v Hd).
  - by apply IH.
Qed.

Lemma init_catchall_cfg :
  exists d,
    EventDefinition.init (mkDefinitionCfg (Some (TypeStr "*")) (Some [])) = Ok d /\
    EventDefinition.is_catchall d = true /\
    EventDefinition._included_types d = ["*"] /\
    EventDefinition._excluded_types d = [] /\
    EventDefinition.traits d =
      [ ("message_id",
         TraitDefinition.mk (mkTraitCfg (Some "text") (Some (FieldsStr (Fields ["message_id"]))))
           "message_id" (Fields ["message_id"]) TEXT_TYPE);
        ("service",
         TraitDefinition.mk (mkTraitCfg (Some "text") (Some (FieldsStr (Fields ["publisher_id"]))))
           "service" (Fields ["publisher_id"]) TEXT_TYPE);
        ("request_id",
         TraitDefinition.mk
           (mkTraitCfg (Some "text") (Some (FieldsStr (Fields ["_context_request_id"]))))
           "request_id" (Fields ["_context_request_id"]) TEXT_TYPE);
        ("tenant_id",
         TraitDefinition.mk (mkTraitCfg (Some "text") (Some (FieldsStr (Fields ["_context_tenant"]))))
           "tenant_id" (Fields ["_context_tenant"]) TEXT_TYPE) ].
Proof. eexists. repeat split. Qed.

Lemma init_definitions events_config add_catchall conv :
  NotificationEventsConverter.init events_config add_catchall = Ok conv ->
  exists ds,
    NotificationEventsConverter.build_definitions events_config = Ok ds /\
    (add_catchall = true ->
     existsb EventDefinition.is_catchall (NotificationEventsConverter.definitions conv) = true) /\
    (add_catchall = false -> NotificationEventsConverter.definitions conv = ds).
Proof.
  unfold NotificationEventsConverter.init.
  destruct (NotificationEventsConverter.build_definitions events_config) as [ds|];
    [|discriminate]. cbn [rbind].
  intros Hinit. exists ds. split; [reflexivity|].
  destruct add_catchall; cbn [andb] in Hinit.
  - split; [intros _ | discriminate].
    destruct (existsb EventDefinition.is_catchall ds) eqn:Hex; cbn [negb] in Hinit.
    + by injection Hinit as <-.
    + destruct init_catchall_cfg as (d & Hd & Hc & _). rewrite Hd in Hinit.
      cbn [rbind] in Hinit. injection Hinit as <-.
      cbn [NotificationEventsConverter.definitions].
      rewrite existsb_app. simpl. by rewrite Hc, orb_true_r.
  - split; [discriminate | intros _]. by injection Hinit as <-.
Qed.

Section Dropping.
Context `{Runtime}.
Implicit Types (now : datetime) (body : gmap string json)
  (conv : NotificationEventsConverter.t).

Lemma to_event_none_first_match conv now body :
  NotificationEventsConverter.to_event conv now body = Ok None ->
  exists et,
    body !! "event_type" = Some et /\
    NotificationEventsConverter.first_match
      (NotificationEventsConverter.definitions conv) et = Ok None.
Proof.
  unfold NotificationEventsConverter.to_event, dict_item.
  destruct (body !! "event_type") as [et|]; [|discriminate]. simpl.
  destruct (body !! "message_id"); [|discriminate]. simpl.
  destruct (NotificationEventsConverter.first_match _ et) as [[d|]|] eqn:Hfm; simpl.
  - destruct (EventDefinition.to_event d now body); discriminate.
  - intros _. exists et. split; [reflexivity | exact Hfm].
  - discriminate.
Qed.

Lemma to_event_none_iff conv now body et :
  well_formed body et ->
  NotificationEventsConverter.to_event conv now body = Ok None <->
  Forall (fun d => EventDefinition.match_type d (JStr et) = Ok false)
    (NotificationEventsConverter.definitions conv).
Proof.
  intros Hwf. split.
  - intros Hnone. apply to_event_none_first_match in Hnone as (et' & Het' & Hfm).
    destruct Hwf as [Het _]. rewrite Het in Het'. injection Het' as <-.
    by apply first_match_none.
  - by apply to_event_no_match.
Qed.

Lemma to_event_catchall_not_none conv now body :
  existsb EventDefinition.is_catchall (NotificationEventsConverter.definitions conv) = true ->
  NotificationEventsConverter.to_event conv now body <> Ok None.
Proof.
  intros Hex Hnone. apply to_event_none_first_match in Hnone as (et & _ & Hfm).
  by destruct (first_match_catchall _ et Hex).
Qed.

(** C7.  On a notification with an [event_type] string and a
    [message_id], the converter returns [None] exactly when no rule's
    matcher accepts the type.  A converter built with the catch-all never
    returns [None], so [None] is only returned when dropping is allowed;
    built from an empty configuration with dropping allowed it has no
    rule and returns [None] whenever the body has both keys. *)
Theorem convert_none_iff events_config add_catchall conv :
  NotificationEventsConverter.init events_config add_catchall = Ok conv ->
  (forall now body et, well_formed body et ->
     (NotificationEventsConverter.to_event conv now body = Ok None <->
      Forall (fun d => EventDefinition.match_type d (JStr et) = Ok false)
        (NotificationEventsConverter.definitions conv))) /\
  (forall now body,
     NotificationEventsConverter.to_event conv now body = Ok None -> add_catchall = false) /\
  (add_catchall = true ->
   forall now body, NotificationEventsConverter.to_event conv now body <> Ok None) /\
  (events_config = [] -> add_catchall = false ->
   NotificationEventsConverter.definitions conv = [] /\
   forall now body,
     is_Some (body !! "event_type") -> is_Some (body !! "message_id") ->
     NotificationEventsConverter.to_event conv now body = Ok None).
Proof.
  intros Hinit. apply init_definitions in Hinit as (ds & Hds & Hadd & Hnoadd).
  assert (Hnever : add_catchall = true ->
    forall now body, NotificationEventsConverter.to_event conv now body <> Ok None).
  { intros Ha now body. by apply to_event_catchall_not_none, Hadd. }
  split; [|split; [|split]].
  - intros now body et. apply to_event_none_iff.
  - intros now body Hnone. destruct add_catchall; [|reflexivity].
    by destruct (Hnever eq_refl now body).
  - exact Hnever.
  - intros -> Ha. rewrite build_definitions_nil in Hds. injection Hds as <-.
    assert (Hdefs : NotificationEventsConverter.definitions conv = []) by auto.
    split; [exact Hdefs|]. intros now body [et Het] [mid Hmid].
    unfold NotificationEventsConverter.to_event, dict_item.
    rewrite Het, Hmid, Hdefs. reflexivity.
Qed.
End Dropping.

Lemma convert_none_iff_witness :
  NotificationEventsConverter.to_event (NotificationEventsConverter.mk [])
    "2026-01-01 00:00:00" test_notification1 = Ok None.
Proof.
  destruct (convert_none_iff (H := demo_runtime) [] false
              (NotificationEventsConverter.mk []) eq_refl) as (_ & _ & _ & Hempty).
  destruct (Hempty eq_refl eq_refl) as [_ Hnone].
  apply Hnone; eexists; reflexivity.
Defined.

(** ** The empty configuration *)

Section EmptyConfiguration.
Context `{Runtime}.
Implicit Types (now : datetime) (body : gmap string json)
  (conv : NotificationEventsConverter.t).

Lemma collect_traits_length tds body trs :
  EventDefinition.collect_traits tds body = Ok trs -> length trs <= length tds.
Proof.
  revert trs. induction tds as [|[n td] tds IH]; intros trs; simpl.
  - intros [= <-]. reflexivity.
  - destruct (TraitDefinition.to_trait td body) as [o|]; [|discriminate]. simpl.
    destruct (EventDefinition.collect_traits tds body) as [trs'|]; [|discriminate]. simpl.
    intros [= <-]. specialize (IH trs' eq_refl). destruct o; simpl; lia.
Qed.

Lemma to_trait_text td body :
  TraitDefinition.trait_type td = TEXT_TYPE -> is_ok (TraitDefinition.to_trait td body).
Proof.
  intros Hty. rewrite to_trait_spec, Hty.
  destruct (first_non_null _); eexists; reflexivity.
Qed.

Lemma collect_traits_text tds body :
  Forall (fun ntd => TraitDefinition.trait_type ntd.2 = TEXT_TYPE) tds ->
  is_ok (EventDefinition.collect_traits tds body).
Proof.
  induction 1 as [|[n td] tds Htd _ [trs IH]]; simpl.
  - eexists. reflexivity.
  - destruct (to_trait_text td body Htd) as [o ->]. rewrite IH. eexists. reflexivity.
Qed.

Lemma first_match_some_in defs v d :
  NotificationEventsConverter.first_match defs v = Ok (Some d) -> d ∈ defs.
Proof.
  induction defs as [|d' defs IH]; simpl; [discriminate|].
  destruct (EventDefinition.match_type d' v) as [[|]|]; simpl.
  - intros [= <-]. left.
  - intros Hd. right. by apply IH.
  - discriminate.
Qed.

Lemma to_event_some_inv conv now body ev :
  NotificationEventsConverter.to_event conv now body = Ok (Some ev) ->
  exists d, d ∈ NotificationEventsConverter.definitions conv /\
    EventDefinition.to_event d now body = Ok ev.
Proof.
  unfold NotificationEventsConverter.to_event, dict_item.
  destruct (body !! "event_type") as [et|]; [|discriminate]. simpl.
  destruct (body !! "message_id"); [|discriminate]. simpl.
  destruct (NotificationEventsConverter.first_match _ et) as [[d|]|] eqn:Hfm; simpl;
    [|discriminate..].
  destruct (EventDefinition.to_event d now body) as [ev'|] eqn:Hev; [|discriminate].
  simpl. intros [= <-]. exists d. split; [by eapply first_match_some_in | exact Hev].
Qed.

(** C6.  The converter built from the empty configuration with the
    catch-all holds one rule: a catch-all whose traits are the four
    defaults.  It never returns [None]; an event it returns has at most
    four traits; and it does return an event for every notification that
    has an [event_type] string and a [message_id] and whose generation
    time can be read. *)
Theorem empty_config_catchall :
  exists d,
    NotificationEventsConverter.init [] true = Ok (NotificationEventsConverter.mk [d]) /\
    NotificationEventsConverter.setup_events_default false =
      Ok (NotificationEventsConverter.mk [d]) /\
    EventDefinition.is_catchall d = true /\
    EventDefinition._included_types d = ["*"] /\
    EventDefinition._excluded_types d = [] /\
    map (fun ntd => (ntd.1, TraitDefinition.name ntd.2, TraitDefinition.fields ntd.2,
                     TraitDefinition.trait_type ntd.2)) (EventDefinition.traits d) =
      [ ("message_id", "message_id", Fields ["message_id"], TEXT_TYPE);
        ("service", "service", Fields ["publisher_id"], TEXT_TYPE);
        ("request_id", "request_id", Fields ["_context_request_id"], TEXT_TYPE);
        ("tenant_id", "tenant_id", Fields ["_context_tenant"], TEXT_TYPE) ] /\
    (forall now body,
       NotificationEventsConverter.to_event (NotificationEventsConverter.mk [d]) now body
       <> Ok None) /\
    (forall now body ev,
       NotificationEventsConverter.to_event (NotificationEventsConverter.mk [d]) now body
       = Ok (Some ev) -> length (traits ev) <= 4) /\
    (forall now body et,
       well_formed body et ->
       is_ok (EventDefinition._extract_when now body) ->
       exists ev,
         NotificationEventsConverter.to_event (NotificationEventsConverter.mk [d]) now body
         = Ok (Some ev) /\
         event_type ev = JStr et /\ length (traits ev) <= 4).
Proof.
  destruct init_catchall_cfg as (d & Hd & Hcatch & Hinc & Hexc & Htraits).
  assert (Hinit : NotificationEventsConverter.init [] true =
                  Ok (NotificationEventsConverter.mk [d])).
  { unfold NotificationEventsConverter.init. cbn [NotificationEventsConverter.build_definitions
      rbind existsb negb andb]. rewrite Hd. reflexivity. }
  assert (Hlen : forall now body ev,
    NotificationEventsConverter.to_event (NotificationEventsConverter.mk [d]) now body
    = Ok (Some ev) -> length (traits ev) <= 4).
  { intros now body ev Hev. apply to_event_some_inv in Hev as (d' & Hin & Hev).
    apply list_elem_of_singleton in Hin as ->.
    apply to_event_inv in Hev as (? & ? & trs & _ & _ & Htrs & ->). simpl.
    apply collect_traits_length in Htrs. by rewrite Htraits in Htrs. }
  exists d. split; [exact Hinit|]. split; [exact Hinit|]. split; [exact Hcatch|].
  split; [exact Hinc|]. split; [exact Hexc|]. split; [by rewrite Htraits|].
  split; [|split; [exact Hlen|]].
  - intros now body. apply to_event_catchall_not_none. simpl. by rewrite Hcatch.
  - intros now body et Hwf [when Hwhen].
    destruct (collect_traits_text (EventDefinition.traits d) body) as [trs Htrs].
    { rewrite Htraits. repeat constructor. }
    assert (Hev : NotificationEventsConverter.to_event
                    (NotificationEventsConverter.mk [d]) now body =
                  Ok (Some (mkEvent (JStr et) when trs))).
    { rewrite (to_event_first_match _ now body et [] d [] Hwf);
        [|reflexivity|constructor|by apply catchall_matches].
      destruct Hwf as [Het _].
      unfold EventDefinition.to_event, dict_item. rewrite Het. simpl.
      rewrite Hwhen. simpl. rewrite Htrs. reflexivity. }
    eexists. split; [exact Hev|]. split; [reflexivity|]. by apply (Hlen now body).
Qed.
End EmptyConfiguration.

Lemma empty_config_catchall_witness :
  exists ev,
    NotificationEventsConverter.to_event
      (NotificationEventsConverter.mk
         [rule_of (mkDefinitionCfg (Some (TypeStr "*")) (Some []))])
      "2026-01-01 00:00:00" test_notification1 = Ok (Some ev) /\
    event_type ev = JStr "compute.instance.create.start" /\
    length (traits ev) <= 4.
Proof.
  destruct (empty_config_catchall (H := demo_runtime))
    as (d & Hinit & _ & _ & _ & _ & _ & _ & _ & Htotal).
  injection Hinit as <-.
  apply (Htotal "2026-01-01 00:00:00" test_notification1 "compute.instance.create.start").
  - split; [reflexivity | eexists; reflexivity].
  - eexists. reflexivity.
Defined.

(** * Further properties *)

(** ** The dict of trait definitions *)

Lemma dict_set_keys {V} (k : string) (v : V) (d : list (string * V)) :
  (dict_set k v d).*1 = if decide (k ∈ d.*1) then d.*1 else d.*1 ++ [k].
Proof.
  induction d as [|[k' v'] d IH]; [reflexivity|].
  cbn [dict_set]. destruct (String.eqb_spec k k') as [->|Hne]; rewrite !fmap_cons; cbn [fst].
  - rewrite decide_True by left. reflexivity.
  - rewrite IH. destruct (decide (k ∈ d.*1)) as [Hin|Hnin].
    + rewrite decide_True by (by right). reflexivity.
    + rewrite decide_False; [reflexivity|].
      intros Hin. apply elem_of_cons in Hin as [?|?]; congruence.
Qed.

Lemma dict_set_NoDup {V} (k : string) (v : V) (d : list (string * V)) :
  NoDup d.*1 -> NoDup (dict_set k v d).*1.
Proof.
  intros Hnd. rewrite dict_set_keys. destruct (decide (k ∈ d.*1)); [exact Hnd|].
  apply NoDup_app. split; [exact Hnd|]. split.
  - intros x Hx Hk. apply list_elem_of_singleton in Hk as ->. contradiction.
  - apply NoDup_singleton.
Qed.

Lemma dict_set_length {V} (k : string) (v : V) (d : list (string * V)) :
  length (dict_set k v d) = if decide (k ∈ d.*1) then length d else S (length d).
Proof.
  rewrite <- (length_fmap fst (dict_set k v d)), dict_set_keys.
  destruct (decide (k ∈ d.*1)); rewrite ?length_app, length_fmap; simpl; lia.
Qed.

Lemma dict_lookup_set_eq {V} (k : string) (v : V) (d : list (string * V)) :
  dict_lookup k (dict_set k v d) = Some v.
Proof.
  induction d as [|[k' v'] d IH]; simpl.
  - by rewrite String.eqb_refl.
  - destruct (String.eqb_spec k k') as [->|Hne]; simpl.
    + by rewrite String.eqb_refl.
    + destruct (String.eqb_spec k k'); [congruence | exact IH].
Qed.

Lemma dict_lookup_set_ne {V} (k k' : string) (v : V) (d : list (string * V)) :
  k <> k' -> dict_lookup k' (dict_set k v d) = dict_lookup k' d.
Proof.
  intros Hne. induction d as [|[k0 v0] d IH]; simpl.
  - destruct (String.eqb_spec k' k); [congruence | reflexivity].
  - destruct (String.eqb_spec k k0) as [->|Hne0]; simpl.
    + destruct (String.eqb_spec k' k0); [congruence | reflexivity].
    + destruct (String.eqb_spec k' k0); [reflexivity | exact IH].
Qed.

Lemma dict_lookup_elem_of {V} (k : string) (v : V) (d : list (string * V)) :
  dict_lookup k d = Some v -> (k, v) ∈ d.
Proof.
  induction d as [|[k' v'] d IH]; simpl; [discriminate|].
  destruct (String.eqb_spec k k') as [->|Hne].
  - intros [= ->]. left.
  - intros Hl. right. by apply IH.
Qed.

Lemma elem_of_dict_lookup {V} (k : string) (v : V) (d : list (string * V)) :
  NoDup d.*1 -> (k, v) ∈ d -> dict_lookup k d = Some v.
Proof.
  induction d as [|[k' v'] d IH]; simpl; intros Hnd Hin.
  - inversion Hin.
  - apply NoDup_cons in Hnd as [Hk' Hnd].
    apply elem_of_cons in Hin as [[= <- <-]|Hin].
    + by rewrite String.eqb_refl.
    + destruct (String.eqb_spec k k') as [->|Hne].
      * destruct Hk'. apply list_elem_of_fmap. by exists (k', v).
      * by apply IH.
Qed.

Lemma dict_lookup_None {V} (k : string) (d : list (string * V)) :
  dict_lookup k d = None <-> k ∉ d.*1.
Proof.
  induction d as [|[k' v'] d IH]; simpl.
  - split; [intros _ Hin; inversion Hin | reflexivity].
  - destruct (String.eqb_spec k k') as [->|Hne].
    + split; [discriminate | intros Hn; destruct Hn; left].
    + rewrite IH, not_elem_of_cons. tauto.
Qed.

(** ** Construction of a trait definition *)

Lemma trait_init_inv name cfg td :
  TraitDefinition.init name cfg = Ok td ->
  TraitDefinition.name td = name /\
  TraitDefinition.cfg td = cfg /\
  trait_type_of (default "text" (cfg_type cfg)) = Some (TraitDefinition.trait_type td) /\
  exists f, cfg_fields cfg = Some f /\ f <> FieldsList [].
Proof.
  unfold TraitDefinition.init. destruct (cfg_fields cfg) as [f|]; [|discriminate].
  intros Hinit.
  destruct f as [p|[|p [|q ps]]|text err]; cbn [rbind] in Hinit; try discriminate;
    (destruct (trait_type_of _) as [ty|] eqn:Hty; [|discriminate]);
    injection Hinit as <-; cbn [TraitDefinition.name TraitDefinition.cfg
                                 TraitDefinition.trait_type];
    (split; [reflexivity|]); (split; [reflexivity|]); (split; [reflexivity|]);
    eexists; (split; [reflexivity | discriminate]).
Qed.

Lemma add_traits_inv cfgs acc r :
  EventDefinition.add_traits cfgs acc = Ok r ->
  Forall (fun nc => is_ok (TraitDefinition.init nc.1 nc.2)) cfgs /\
  (NoDup acc.*1 -> NoDup r.*1) /\
  (Forall (fun ntd => TraitDefinition.name ntd.2 = ntd.1) acc ->
   Forall (fun ntd => TraitDefinition.name ntd.2 = ntd.1) r) /\
  (forall k, k ∈ acc.*1 -> k ∈ r.*1) /\
  (forall k, k ∉ cfgs.*1 -> dict_lookup k r = dict_lookup k acc).
Proof.
  revert acc. induction cfgs as [|[n c] cfgs IH]; intros acc; simpl.
  - intros [= <-]. repeat split; auto.
  - destruct (TraitDefinition.init n c) as [td|] eqn:Htd; [|discriminate]. simpl.
    intros Hr. destruct (IH _ Hr) as (Hall & Hnd & Hname & Hkeys & Hother).
    split; [constructor; [by eexists | exact Hall]|].
    split; [intros Hacc; by apply Hnd, dict_set_NoDup|].
    split.
    { intros Hacc. apply Hname. clear -Hacc Htd.
      apply trait_init_inv in Htd as [Hn _].
      induction acc as [|[k' v'] acc IHacc]; simpl.
      - by repeat constructor.
      - apply Forall_cons in Hacc as [Hh Ht].
        destruct (String.eqb n k'); constructor; auto. }
    split.
    { intros k Hk. apply Hkeys. rewrite dict_set_keys.
      destruct (decide (n ∈ acc.*1)); [exact Hk | apply elem_of_app; by left]. }
    intros k Hk. apply not_elem_of_cons in Hk as [Hne Hk]. simpl in Hne.
    rewrite (Hother k Hk). by apply dict_lookup_set_ne.
Qed.

Lemma add_traits_lookup cfgs acc r n c :
  EventDefinition.add_traits cfgs acc = Ok r ->
  NoDup cfgs.*1 -> (n, c) ∈ cfgs ->
  exists td, TraitDefinition.init n c = Ok td /\ dict_lookup n r = Some td.
Proof.
  revert acc. induction cfgs as [|[n' c'] cfgs IH]; intros acc Hr Hnd Hin.
  - inversion Hin.
  - simpl in Hr, Hnd. apply NoDup_cons in Hnd as [Hn' Hnd].
    destruct (TraitDefinition.init n' c') as [td|] eqn:Htd; [|discriminate]. simpl in Hr.
    apply elem_of_cons in Hin as [[= -> ->]|Hin].
    + exists td. split; [exact Htd|].
      destruct (add_traits_inv _ _ _ Hr) as (_ & _ & _ & _ & Hother).
      rewrite (Hother n' Hn'). apply dict_lookup_set_eq.
    + by apply (IH _ Hr).
Qed.

Lemma add_traits_ok cfgs acc :
  Forall (fun nc => is_ok (TraitDefinition.init nc.1 nc.2)) cfgs ->
  is_ok (EventDefinition.add_traits cfgs acc).
Proof.
  intros Hall. revert acc. induction Hall as [|[n c] cfgs [td Htd] _ IH]; intros acc; simpl.
  - by eexists.
  - simpl in Htd. rewrite Htd. simpl. apply IH.
Qed.

Lemma filter_ext_elem_of {A} (P Q : A -> Prop) `{!forall x, Decision (P x)}
    `{!forall x, Decision (Q x)} (l : list A) :
  (forall x, x ∈ l -> P x <-> Q x) -> filter P l = filter Q l.
Proof.
  induction l as [|a l IH]; intros Hext; [reflexivity|].
  rewrite !filter_cons.
  rewrite IH by (intros x Hx; apply Hext; by right).
  destruct (decide (P a)) as [Hp|Hp], (decide (Q a)) as [Hq|Hq]; try reflexivity;
    exfalso; apply (Hext a) in Hp || apply (Hext a) in Hq; try left; contradiction.
Qed.

Lemma add_traits_length cfgs acc r :
  EventDefinition.add_traits cfgs acc = Ok r ->
  NoDup cfgs.*1 ->
  length r = length acc + length (filter (fun nc => nc.1 ∉ acc.*1) cfgs).
Proof.
  revert acc. induction cfgs as [|[n c] cfgs IH]; intros acc Hr Hnd; simpl in Hr.
  - injection Hr as <-. simpl. lia.
  - rewrite fmap_cons in Hnd. apply NoDup_cons in Hnd as [Hn Hnd]. cbn [fst] in Hn.
    destruct (TraitDefinition.init n c) as [td|]; [|discriminate]. simpl in Hr.
    rewrite (IH _ Hr Hnd), dict_set_length, dict_set_keys, filter_cons. cbn [fst].
    destruct (decide (n ∈ acc.*1)) as [Hin|Hnin].
    + rewrite decide_False by auto. reflexivity.
    + rewrite decide_True by assumption. cbn [length].
      rewrite (filter_ext_elem_of (fun nc => nc.1 ∉ acc.*1 ++ [n]) (fun nc => nc.1 ∉ acc.*1)).
      * lia.
      * intros [n' c'] Hin'. cbn [fst]. rewrite not_elem_of_app, list_elem_of_singleton.
        split; [tauto|]. intros Hn'. split; [exact Hn'|].
        intros ->. apply Hn. apply list_elem_of_fmap. by exists (n, c').
Qed.

(** ** Construction of a rule *)

Lemma default_definitions_built :
  EventDefinition.add_traits EventDefinition.DEFAULT_TRAITS [] = Ok default_definitions.
Proof. reflexivity. Qed.

Lemma event_init_inv cfg self :
  EventDefinition.init cfg = Ok self ->
  exists et trs,
    cfg_event_type cfg = Some et /\
    cfg_traits cfg = Some trs /\
    EventDefinition.add_traits trs default_definitions = Ok (EventDefinition.traits self) /\
    EventDefinition.cfg self = cfg.
Proof.
  unfold EventDefinition.init. intros Hinit.
  destruct (cfg_event_type cfg) as [et|]; [|discriminate].
  destruct (cfg_traits cfg) as [trs|]; [|discriminate].
  exists et, trs. split; [reflexivity|]. split; [reflexivity|].
  destruct (EventDefinition.split_types _) as [inc exc] in Hinit.
  rewrite default_definitions_built in Hinit. cbn [rbind] in Hinit.
  destruct (EventDefinition.add_traits trs default_definitions) as [tr|]; [|discriminate].
  cbn [rbind] in Hinit. by injection Hinit as <-.
Qed.

(** X1.  In a rule that was built, the names of the trait definitions are
    pairwise distinct, every definition carries the name it is stored
    under, and the four default names are among them. *)
Theorem init_traits_table cfg self :
  EventDefinition.init cfg = Ok self ->
  NoDup (EventDefinition.traits self).*1 /\
  Forall (fun ntd => TraitDefinition.name ntd.2 = ntd.1) (EventDefinition.traits self) /\
  Forall (fun n => n ∈ (EventDefinition.traits self).*1)
    ["message_id"; "service"; "request_id"; "tenant_id"].
Proof.
  intros Hinit. apply event_init_inv in Hinit as (et & trs & _ & _ & Htr & _).
  destruct (add_traits_inv _ _ _ Htr) as (_ & Hnd & Hname & Hkeys & _).
  split; [apply Hnd; apply (bool_decide_unpack _); vm_compute; exact I|].
  split; [apply Hname; repeat constructor|].
  repeat constructor; apply Hkeys; apply (bool_decide_unpack _); vm_compute; exact I.
Qed.

Lemma init_traits_table_witness :
  NoDup (EventDefinition.traits (rule_of override_def)).*1.
Proof.
  exact (proj1 (init_traits_table override_def (rule_of override_def) eq_refl)).
Defined.

Lemma default_traits_lookup n c :
  (n, c) ∈ EventDefinition.DEFAULT_TRAITS ->
  TraitDefinition.init n c = Ok (rule_trait n c) /\
  dict_lookup n default_definitions = Some (rule_trait n c).
Proof.
  intros Hin. apply list_elem_of_In in Hin. simpl in Hin.
  destruct Hin as [[= <- <-]|[[= <- <-]|[[= <- <-]|[[= <- <-]|[]]]]]; split; reflexivity.
Qed.

(** X2.  The trait dict of a built rule holds, under each name of the
    rule's [traits] configuration, the definition built from that entry
    (also when the name is a default one: the default is replaced); under a
    default name the configuration does not mention, the default
    definition; and nothing under any other name. *)
Theorem init_traits_lookup cfg self trs :
  EventDefinition.init cfg = Ok self ->
  cfg_traits cfg = Some trs ->
  NoDup trs.*1 ->
  (forall n c, (n, c) ∈ trs ->
     exists td, TraitDefinition.init n c = Ok td /\
       dict_lookup n (EventDefinition.traits self) = Some td) /\
  (forall n c, (n, c) ∈ EventDefinition.DEFAULT_TRAITS -> n ∉ trs.*1 ->
     exists td, TraitDefinition.init n c = Ok td /\
       dict_lookup n (EventDefinition.traits self) = Some td) /\
  (forall n, n ∉ EventDefinition.DEFAULT_TRAITS.*1 -> n ∉ trs.*1 ->
     dict_lookup n (EventDefinition.traits self) = None).
Proof.
  intros Hinit Htrs Hnd.
  apply event_init_inv in Hinit as (et & trs' & _ & Htrs' & Htr & _).
  rewrite Htrs in Htrs'. injection Htrs' as <-.
  destruct (add_traits_inv _ _ _ Htr) as (_ & _ & _ & _ & Hother).
  split; [|split].
  - intros n c Hin. by apply (add_traits_lookup trs default_definitions).
  - intros n c Hin Hn. destruct (default_traits_lookup n c Hin) as [Hi Hl].
    exists (rule_trait n c). split; [exact Hi|]. by rewrite (Hother n Hn).
  - intros n Hdef Hn. rewrite (Hother n Hn). by apply dict_lookup_None.
Qed.

Lemma init_traits_lookup_witness :
  exists td,
    TraitDefinition.init "service"
      (mkTraitCfg (Some "text") (Some (FieldsStr (payload_path "host")))) = Ok td /\
    dict_lookup "service" (EventDefinition.traits (rule_of override_def)) = Some td.
Proof.
  refine (proj1 (init_traits_lookup override_def (rule_of override_def) _ eq_refl eq_refl _)
            "service" _ _).
  - apply (bool_decide_unpack _). vm_compute. exact I.
  - left.
Defined.

(** X3.  A built rule has the four default traits plus one trait per
    configured name that is not a default name. *)
Theorem init_traits_count cfg self trs :
  EventDefinition.init cfg = Ok self ->
  cfg_traits cfg = Some trs ->
  NoDup trs.*1 ->
  length (EventDefinition.traits self) =
  4 + length (filter (fun nc => nc.1 ∉ EventDefinition.DEFAULT_TRAITS.*1) trs).
Proof.
  intros Hinit Htrs Hnd.
  apply event_init_inv in Hinit as (et & trs' & _ & Htrs' & Htr & _).
  rewrite Htrs in Htrs'. injection Htrs' as <-.
  by rewrite (add_traits_length _ _ _ Htr Hnd).
Qed.

Lemma init_traits_count_witness :
  length (EventDefinition.traits (rule_of override_def)) = 5.
Proof.
  refine (init_traits_count override_def (rule_of override_def) _ eq_refl eq_refl _).
  apply (bool_decide_unpack _). vm_compute. exact I.
Defined.

Lemma add_traits_raise pre n c post acc e :
  Forall (fun nc => is_ok (TraitDefinition.init nc.1 nc.2)) pre ->
  TraitDefinition.init n c = Raise e ->
  EventDefinition.add_traits (pre ++ (n, c) :: post) acc = Raise e.
Proof.
  intros Hpre Hraise. revert acc.
  induction Hpre as [|[n' c'] pre [td Htd] _ IH]; intros acc; simpl.
  - by rewrite Hraise.
  - simpl in Htd. rewrite Htd. simpl. apply IH.
Qed.

(** X4.  Building a rule succeeds exactly when the configuration has
    [event_type] and [traits] and every trait entry builds.  A missing
    [event_type] is reported first, then a missing [traits]; otherwise the
    error of the first trait entry that fails, in the order the entries are
    iterated, is the one raised. *)
Theorem init_ok_iff cfg :
  (is_ok (EventDefinition.init cfg) <->
   is_Some (cfg_event_type cfg) /\
   exists trs, cfg_traits cfg = Some trs /\
     Forall (fun nc => is_ok (TraitDefinition.init nc.1 nc.2)) trs) /\
  (cfg_event_type cfg = None ->
   EventDefinition.init cfg =
   Raise (EventDefinitionException "Required field event_type not specified")) /\
  (is_Some (cfg_event_type cfg) -> cfg_traits cfg = None ->
   EventDefinition.init cfg =
   Raise (EventDefinitionException "Required field traits not specified")) /\
  (forall pre n c post e,
     is_Some (cfg_event_type cfg) ->
     cfg_traits cfg = Some (pre ++ (n, c) :: post) ->
     Forall (fun nc => is_ok (TraitDefinition.init nc.1 nc.2)) pre ->
     TraitDefinition.init n c = Raise e ->
     EventDefinition.init cfg = Raise e).
Proof.
  split; [split|split; [|split]].
  - intros [self Hself]. apply event_init_inv in Hself as (et & trs & Het & Htrs & Htr & _).
    split; [by rewrite Het|]. exists trs. split; [exact Htrs|].
    by destruct (add_traits_inv _ _ _ Htr) as [? _].
  - intros [[et Het] (trs & Htrs & Hall)]. unfold EventDefinition.init.
    rewrite Het, Htrs. destruct (EventDefinition.split_types _) as [inc exc].
    rewrite default_definitions_built. cbn [rbind].
    destruct (add_traits_ok trs default_definitions Hall) as [tr ->]. by eexists.
  - intros Het. unfold EventDefinition.init. by rewrite Het.
  - intros [et Het] Htrs. unfold EventDefinition.init. by rewrite Het, Htrs.
  - intros pre n c post e [et Het] Htrs Hpre Hraise. unfold EventDefinition.init.
    rewrite Het, Htrs. destruct (EventDefinition.split_types _) as [inc exc].
    rewrite default_definitions_built. cbn [rbind].
    by rewrite (add_traits_raise pre n c post _ e Hpre Hraise).
Qed.

Lemma init_ok_iff_witness :
  EventDefinition.init bogus_type_def =
  Raise (EventDefinitionException "Invalid trait type 'bogus' for trait bogus").
Proof.
  refine (proj2 (proj2 (proj2 (init_ok_iff bogus_type_def)))
            [("host", mkTraitCfg (Some "text") (Some (FieldsStr (payload_path "host"))))]
            "bogus" (mkTraitCfg (Some "bogus") (Some (FieldsStr (payload_path "test"))))
            [] _ _ eq_refl _ eq_refl).
  - by eexists.
  - repeat constructor. by eexists.
Defined.

(** ** The traits of an event *)

Lemma find_field k (d : gmap string json) :
  k <> "*" ->
  find (Fields [k]) (JDict d) = match d !! k with Some v => [v] | None => [] end.
Proof.
  intros Hk. simpl. unfold reified_fields.
  rewrite bool_decide_eq_false_2.
  - simpl. by destruct (d !! k).
  - intros Hin. apply list_elem_of_singleton in Hin. congruence.
Qed.

Section EventTraits.
Context `{Runtime}.
Implicit Types (now : datetime) (body : gmap string json).

Lemma collect_traits_outcomes tds body trs :
  EventDefinition.collect_traits tds body = Ok trs ->
  exists outs,
    trs = omap id outs /\
    Forall2 (fun ntd o => trait_outcome ntd.2 body o) tds outs.
Proof.
  intros Htrs. apply collect_traits_spec in Htrs as (outs & Hall & ->).
  exists outs. split; [reflexivity|].
  eapply Forall2_impl; [exact Hall|]. intros ntd o. apply to_trait_outcome.
Qed.

Lemma trait_outcome_name td body tr :
  trait_outcome td body (Some tr) ->
  trait_name tr = TraitDefinition.name td /\ dtype tr = TraitDefinition.trait_type td.
Proof.
  unfold trait_outcome. destruct (first_non_null _); [|discriminate].
  intros (_ & x & _ & [= ->]). split; reflexivity.
Qed.

Lemma outcomes_names_sublist tds body outs :
  Forall (fun ntd => TraitDefinition.name ntd.2 = ntd.1) tds ->
  Forall2 (fun ntd o => trait_outcome ntd.2 body o) tds outs ->
  map trait_name (omap id outs) `sublist_of` tds.*1.
Proof.
  intros Hname Hall. induction Hall as [|[n td] o tds outs Ho _ IH]; simpl.
  - constructor.
  - apply Forall_cons in Hname as [Hn Hname]. simpl in Hn, Ho.
    destruct o as [tr|]; simpl.
    + apply trait_outcome_name in Ho as [-> _]. rewrite Hn.
      apply sublist_skip. by apply IH.
    + apply sublist_cons. by apply IH.
Qed.

(** X5.  In an event produced by a built rule, no two traits have the
    same name, and the names are names of the rule's trait definitions, in
    the order in which the rule's trait dict is iterated. *)
Theorem event_trait_names_unique cfg self now body (ev : Event) :
  EventDefinition.init cfg = Ok self ->
  EventDefinition.to_event self now body = Ok ev ->
  NoDup (map trait_name (traits ev)) /\
  map trait_name (traits ev) `sublist_of` (EventDefinition.traits self).*1.
Proof.
  intros Hinit Hev.
  apply event_init_inv in Hinit as (et & trs & _ & _ & Htr & _).
  destruct (add_traits_inv _ _ _ Htr) as (_ & Hnd & Hname & _ & _).
  apply to_event_inv in Hev as (? & ? & trs' & _ & _ & Htrs & ->). simpl.
  apply collect_traits_outcomes in Htrs as (outs & -> & Hall).
  assert (Hsub : map trait_name (omap id outs) `sublist_of` (EventDefinition.traits self).*1).
  { apply (outcomes_names_sublist _ body); [|exact Hall]. apply Hname. repeat constructor. }
  split; [|exact Hsub]. eapply sublist_NoDup; [|exact Hsub].
  apply Hnd. apply (bool_decide_unpack _). vm_compute. exact I.
Qed.

Lemma to_event_ok self now body et when :
  body !! "event_type" = Some et ->
  EventDefinition._extract_when now body = Ok when ->
  Forall (fun ntd => is_ok (TraitDefinition.to_trait ntd.2 body)) (EventDefinition.traits self) ->
  exists trs, EventDefinition.to_event self now body = Ok (mkEvent et when trs).
Proof.
  intros Het Hwhen Hall.
  assert (Hc : is_ok (EventDefinition.collect_traits (EventDefinition.traits self) body)).
  { induction Hall as [|[n td] tds [o Ho] _ [trs IH]]; simpl.
    - by eexists.
    - simpl in Ho. rewrite Ho, IH. by eexists. }
  destruct Hc as [trs Htrs]. exists trs.
  unfold EventDefinition.to_event, dict_item. rewrite Het. simpl.
  rewrite Hwhen. simpl. by rewrite Htrs.
Qed.

(** X6.  A rule produces an event exactly when the notification has an
    [event_type], its generation time can be read and every trait
    definition of the rule extracts without raising; the event then carries
    the notification's [event_type] and that generation time. *)
Theorem to_event_ok_iff (self : EventDefinition.t) now body :
  (is_ok (EventDefinition.to_event self now body) <->
   is_Some (body !! "event_type") /\
   is_ok (EventDefinition._extract_when now body) /\
   Forall (fun ntd => is_ok (TraitDefinition.to_trait ntd.2 body))
     (EventDefinition.traits self)) /\
  (forall ev, EventDefinition.to_event self now body = Ok ev ->
     body !! "event_type" = Some (event_type ev) /\
     EventDefinition._extract_when now body = Ok (generated ev)).
Proof.
  split; [split|].
  - intros [ev Hev]. apply to_event_inv in Hev as (et & when & trs & Het & Hwhen & Htrs & _).
    split; [by rewrite Het|]. split; [by eexists|].
    apply collect_traits_spec in Htrs as (outs & Hall & _).
    clear -Hall. induction Hall as [|ntd o tds outs Ho _ IH]; constructor; [by eexists | exact IH].
  - intros ([et Het] & [when Hwhen] & Hall).
    destruct (to_event_ok self now body et when Het Hwhen Hall) as [trs Hev]. by eexists.
  - intros ev Hev. apply to_event_inv in Hev as (et & when & trs & Het & Hwhen & _ & ->).
    split; assumption.
Qed.

(** X7.  When the converter returns an event, the rule that produced it
    is one of its rules and accepted the notification's [event_type]; the
    event carries that [event_type] and the generation time read from the
    notification. *)
Theorem converter_event_origin (conv : NotificationEventsConverter.t) now body (ev : Event) :
  NotificationEventsConverter.to_event conv now body = Ok (Some ev) ->
  body !! "event_type" = Some (event_type ev) /\
  is_Some (body !! "message_id") /\
  EventDefinition._extract_when now body = Ok (generated ev) /\
  exists d,
    d ∈ NotificationEventsConverter.definitions conv /\
    EventDefinition.match_type d (event_type ev) = Ok true /\
    EventDefinition.to_event d now body = Ok ev.
Proof.
  unfold NotificationEventsConverter.to_event, dict_item.
  destruct (body !! "event_type") as [et|] eqn:Het; [|discriminate]. simpl.
  destruct (body !! "message_id") as [mid|]; [|discriminate]. simpl.
  destruct (NotificationEventsConverter.first_match _ et) as [[d|]|] eqn:Hfm; simpl;
    [|discriminate..].
  destruct (EventDefinition.to_event d now body) as [ev'|] eqn:Hev; [|discriminate].
  simpl. intros [= <-].
  destruct (to_event_inv _ _ _ _ Hev) as (et' & when & trs & Het' & Hwhen & _ & ->).
  rewrite Het in Het'. injection Het' as <-. simpl.
  split; [reflexivity|]. split; [by eexists|]. split; [exact Hwhen|].
  exists d. split; [by eapply first_match_some_in|]. split; [|exact Hev].
  clear -Hfm. induction (NotificationEventsConverter.definitions conv) as [|d' defs IH];
    simpl in Hfm; [discriminate|].
  destruct (EventDefinition.match_type d' et) as [[|]|] eqn:Hm; simpl in Hfm.
  - by injection Hfm as <-.
  - by apply IH.
  - discriminate.
Qed.
End EventTraits.

Lemma event_trait_names_unique_witness :
  NoDup (map trait_name (traits test_event1)).
Proof.
  exact (proj1 (event_trait_names_unique (H := demo_runtime) override_def (rule_of override_def)
                  "2026-01-01 00:00:00" test_notification1 test_event1 eq_refl eq_refl)).
Defined.

Lemma to_event_ok_iff_witness :
  test_notification1 !! "event_type" = Some (event_type test_event1) /\
  EventDefinition._extract_when "2026-01-01 00:00:00" test_notification1 =
    Ok (generated test_event1).
Proof.
  exact (proj2 (to_event_ok_iff (H := demo_runtime) (rule_of override_def)
                  "2026-01-01 00:00:00" test_notification1) test_event1 eq_refl).
Defined.

Lemma converter_event_origin_witness :
  exists d,
    d ∈ [rule_of image_def; rule_of override_def] /\
    EventDefinition.match_type d (event_type test_event1) = Ok true /\
    EventDefinition.to_event d "2026-01-01 00:00:00" test_notification1 = Ok test_event1.
Proof.
  exact (proj2 (proj2 (proj2
    (converter_event_origin (H := demo_runtime)
       (NotificationEventsConverter.mk [rule_of image_def; rule_of override_def])
       "2026-01-01 00:00:00" test_notification1 test_event1 eq_refl)))).
Defined.

(** ** Default traits and fallbacks *)

Lemma default_sources_definition n key :
  (n, key) ∈ default_sources ->
  key <> "*" /\
  exists c, (n, c) ∈ EventDefinition.DEFAULT_TRAITS /\
    TraitDefinition.name (rule_trait n c) = n /\
    TraitDefinition.fields (rule_trait n c) = Fields [key] /\
    TraitDefinition.trait_type (rule_trait n c) = TEXT_TYPE.
Proof.
  intros Hin. apply list_elem_of_In in Hin. simpl in Hin.
  destruct Hin as [[= <- <-]|[[= <- <-]|[[= <- <-]|[[= <- <-]|[]]]]];
    (split; [discriminate|]); eexists;
    (split; [apply list_elem_of_In; simpl; eauto 10 | repeat split]).
Qed.

Section DefaultTraits.
Context `{Runtime}.
Implicit Types (now : datetime) (body : gmap string json).

Lemma outcomes_of_event self now body (ev : Event) :
  EventDefinition.to_event self now body = Ok ev ->
  exists outs,
    traits ev = omap id outs /\
    Forall2 (fun ntd o => trait_outcome ntd.2 body o) (EventDefinition.traits self) outs.
Proof.
  intros Hev. apply to_event_inv in Hev as (? & ? & trs & _ & _ & Htrs & ->).
  by apply collect_traits_outcomes.
Qed.

(** X8.  In a built rule that does not redefine it, each default trait
    ([message_id], [service], [request_id], [tenant_id]) is the text of its
    notification field ([message_id], [publisher_id], [_context_request_id],
    [_context_tenant]) when that field holds a non-null value, and is absent
    from the event when the field is missing or null. *)
Theorem default_trait_values cfg self trs now body (ev : Event) n key :
  EventDefinition.init cfg = Ok self ->
  cfg_traits cfg = Some trs ->
  (n, key) ∈ default_sources ->
  n ∉ trs.*1 ->
  EventDefinition.to_event self now body = Ok ev ->
  match body !! key with
  | Some v =>
      if is_null v then forall tr, tr ∈ traits ev -> trait_name tr <> n
      else mkTrait n TEXT_TYPE (VText (py_str v)) ∈ traits ev
  | None => forall tr, tr ∈ traits ev -> trait_name tr <> n
  end.
Proof.
  intros Hinit Htrs Hsrc Hn Hev.
  destruct (default_sources_definition n key Hsrc) as (Hkey & c & Hc & Hname & Hfields & Hty).
  pose proof (event_init_inv _ _ Hinit) as (et & trs' & _ & Htrs' & Htr & _).
  rewrite Htrs in Htrs'. injection Htrs' as <-.
  destruct (add_traits_inv _ _ _ Htr) as (_ & Hnd & Hnames & _ & Hother).
  assert (Hnd' : NoDup (EventDefinition.traits self).*1).
  { apply Hnd. apply (bool_decide_unpack _). vm_compute. exact I. }
  assert (Hnames' : Forall (fun ntd => TraitDefinition.name ntd.2 = ntd.1)
                      (EventDefinition.traits self)).
  { apply Hnames. repeat constructor. }
  assert (Hlook : dict_lookup n (EventDefinition.traits self) = Some (rule_trait n c)).
  { rewrite (Hother n Hn). by apply default_traits_lookup. }
  apply dict_lookup_elem_of in Hlook as Hin.
  destruct (outcomes_of_event _ _ _ _ Hev) as (outs & Htraits & Hall).
  apply list_elem_of_lookup in Hin as [i Hi].
  destruct (Forall2_lookup_l _ _ _ _ _ Hall Hi) as (o & Ho & Hout).
  simpl in Hout. unfold trait_outcome in Hout.
  rewrite Hfields, (find_field key body Hkey), Hname, Hty in Hout.
  assert (Habsent : o = None -> forall tr, tr ∈ traits ev -> trait_name tr <> n).
  { intros -> tr Hmem Htrn. rewrite Htraits in Hmem.
    apply list_elem_of_omap in Hmem as (o' & Ho' & Hid). simpl in Hid. subst o'.
    apply list_elem_of_lookup in Ho' as [j Hj].
    destruct (Forall2_lookup_r _ _ _ _ _ Hall Hj) as ([n' td'] & Hntd & Hout').
    apply trait_outcome_name in Hout' as [Hn' _]. simpl in Hn'.
    pose proof (proj1 (Forall_lookup _ _) Hnames' j _ Hntd) as Hkeyname. simpl in Hkeyname.
    assert (n' = n) by congruence. subst n'.
    assert (i = j).
    { eapply NoDup_lookup; [exact Hnd'| |].
      - rewrite list_lookup_fmap, Hi. simpl. reflexivity.
      - rewrite list_lookup_fmap, Hntd. simpl. f_equal. congruence. }
    subst j. rewrite Hj in Ho. discriminate. }
  destruct (body !! key) as [v|]; [|by apply Habsent].
  unfold first_non_null in Hout. rewrite filter_cons in Hout.
  destruct v; simpl in Hout |- *; try (by apply Habsent);
    destruct Hout as (_ & x & [= <-] & ->); rewrite Htraits;
    apply list_elem_of_omap; eexists; (split; [by eapply list_elem_of_lookup_2 | reflexivity]).
Qed.

Lemma first_non_null_app vs ws :
  first_non_null (vs ++ ws) =
  match first_non_null vs with
  | Some v => Some v
  | None => first_non_null ws
  end.
Proof.
  unfold first_non_null. rewrite filter_app.
  by destruct (filter _ vs).
Qed.

(** X9.  A trait built from two alternative paths takes the first
    non-null value of the first path when there is one, and then the second
    path is not looked at: if converting that value raises, the trait
    raises, whatever the second path holds.  Only when the first path finds
    no non-null value does the trait behave as if built from the second path
    alone. *)
Theorem to_trait_alternatives name cfg p q td body :
  cfg_fields cfg = Some (FieldsList [p; q]) ->
  TraitDefinition.init name cfg = Ok td ->
  (forall v, first_non_null (find p (JDict body)) = Some v ->
     TraitDefinition.to_trait td body =
     let* x := TraitDefinition._convert_value (TraitDefinition.trait_type td) v in
     Ok (Some (mkTrait name (TraitDefinition.trait_type td) x))) /\
  (first_non_null (find p (JDict body)) = None ->
   forall td',
     TraitDefinition.init name (mkTraitCfg (cfg_type cfg) (Some (FieldsStr q))) = Ok td' ->
     TraitDefinition.to_trait td body = TraitDefinition.to_trait td' body).
Proof.
  intros Hf Hinit.
  assert (Hfind : find (TraitDefinition.fields td) (JDict body) =
                  find p (JDict body) ++ find q (JDict body)).
  { rewrite (init_fields_list _ _ _ _ Hf Hinit). simpl. by rewrite app_nil_r. }
  pose proof (trait_init_inv _ _ _ Hinit) as (Hname & _ & Hty & _).
  split.
  - intros v Hv. rewrite to_trait_spec, Hfind, first_non_null_app, Hv, Hname. reflexivity.
  - intros Hnone td' Hinit'.
    pose proof (trait_init_inv _ _ _ Hinit') as (Hname' & _ & Hty' & _). simpl in Hty'.
    assert (Hq : TraitDefinition.fields td' = q).
    { unfold TraitDefinition.init in Hinit'. simpl in Hinit'.
      destruct (trait_type_of _); [|discriminate]. by injection Hinit' as <-. }
    rewrite !to_trait_spec, Hfind, first_non_null_app, Hnone, Hq, Hname, Hname'.
    assert (TraitDefinition.trait_type td = TraitDefinition.trait_type td') as -> by congruence.
    reflexivity.
Qed.
End DefaultTraits.

Lemma default_trait_values_witness :
  mkTrait "service" TEXT_TYPE (VText "compute.host-1-2-3") ∈ traits test_event2.
Proof.
  refine (default_trait_values (H := demo_runtime) valid_event_def1 (rule_of valid_event_def1)
            _ "2026-01-01 00:00:00" test_notification1 test_event2 "service" "publisher_id"
            eq_refl eq_refl _ _ eq_refl).
  - apply list_elem_of_further, list_elem_of_here.
  - apply (bool_decide_unpack _). vm_compute. exact I.
Defined.

Lemma to_trait_alternatives_witness :
  TraitDefinition.to_trait
    (rule_trait "instance_id"
       (mkTraitCfg (Some "text")
          (Some (FieldsList [payload_path "instance_uuid"; payload_path "instance_id"]))))
    test_notification1 =
  TraitDefinition.to_trait
    (rule_trait "instance_id"
       (mkTraitCfg (Some "text") (Some (FieldsStr (payload_path "instance_id")))))
    test_notification1.
Proof.
  exact (proj2 (to_trait_alternatives (H := demo_runtime) "instance_id"
                  (mkTraitCfg (Some "text")
                     (Some (FieldsList [payload_path "instance_uuid";
                                        payload_path "instance_id"])))
                  (payload_path "instance_uuid") (payload_path "instance_id")
                  _ test_notification1 eq_refl eq_refl)
           eq_refl _ eq_refl).
Defined.

(** ** Patterns of a rule *)

Lemma list_ascii_of_string_app (a b : string) :
  list_ascii_of_string (String.append a b) = list_ascii_of_string a ++ list_ascii_of_string b.
Proof. induction a as [|c a IH]; simpl; [reflexivity | by rewrite IH]. Qed.

Lemma list_ascii_of_string_eq (a b : string) :
  list_ascii_of_string a = list_ascii_of_string b -> a = b.
Proof.
  intros Heq. rewrite <- (string_of_list_ascii_of_string a), Heq.
  apply string_of_list_ascii_of_string.
Qed.

Lemma translate_literal p q :
  literal_chars p ->
  translate_from 0 (p ++ q) = map GLit p ++ translate_from 0 q.
Proof.
  induction 1 as [|c p (H1 & H2 & H3) _ IH]; [reflexivity|]. simpl.
  apply Ascii.eqb_neq in H1, H2, H3. by rewrite H1, H2, H3, IH.
Qed.

Lemma toks_match_literal p ts s :
  toks_match (map GLit p ++ ts) s = true <->
  exists s', s = p ++ s' /\ toks_match ts s' = true.
Proof.
  revert s. induction p as [|c p IH]; intros s; simpl.
  - split; [by exists s | by intros (s' & -> & ?)].
  - destruct s as [|c' s].
    + split; [discriminate | by intros (s' & ? & _)].
    + rewrite andb_true_iff, Ascii.eqb_eq, IH. split.
      * intros [-> (s' & -> & Hm)]. by exists s'.
      * intros (s' & [= -> ->] & Hm). split; [reflexivity | by exists s'].
Qed.

Lemma toks_match_star_only s : toks_match [GStar] s = true.
Proof. apply toks_match_star. exists s, []. split; [by rewrite app_nil_r | reflexivity]. Qed.

Lemma fnmatch_literal s p :
  literal_pattern p -> fnmatch s p = true <-> s = p.
Proof.
  intros Hlit. unfold fnmatch, translate.
  rewrite <- (app_nil_r (list_ascii_of_string p)), translate_literal by exact Hlit.
  rewrite toks_match_literal. simpl. split.
  - intros (s' & Hs & Hm). destruct s'; [|discriminate].
    rewrite app_nil_r in Hs. by apply list_ascii_of_string_eq.
  - intros ->. exists []. by rewrite app_nil_r.
Qed.

Lemma fnmatch_prefix s p :
  literal_pattern p ->
  fnmatch s (String.append p "*") = true <-> exists rest, s = String.append p rest.
Proof.
  intros Hlit. unfold fnmatch, translate.
  rewrite list_ascii_of_string_app, translate_literal by exact Hlit.
  rewrite toks_match_literal. split.
  - intros (s' & Hs & _). exists (string_of_list_ascii s').
    apply list_ascii_of_string_eq.
    by rewrite list_ascii_of_string_app, list_ascii_of_string_of_list_ascii.
  - intros (rest & ->). exists (list_ascii_of_string rest).
    split; [apply list_ascii_of_string_app | apply toks_match_star_only].
Qed.

Lemma fnmatch_suffix s p :
  literal_pattern p ->
  fnmatch s (String "*" p) = true <-> exists front, s = String.append front p.
Proof.
  intros Hlit. unfold fnmatch, translate. cbn [list_ascii_of_string translate_from].
  change (Ascii.eqb "*" "*") with true. cbn iota.
  rewrite toks_match_star.
  rewrite <- (app_nil_r (list_ascii_of_string p)), translate_literal by exact Hlit.
  split.
  - intros (s1 & s2 & Hs & Hm). apply toks_match_literal in Hm as (s' & -> & Hm).
    simpl in Hm. destruct s'; [|discriminate]. rewrite !app_nil_r in Hs.
    exists (string_of_list_ascii s1). apply list_ascii_of_string_eq.
    by rewrite list_ascii_of_string_app, list_ascii_of_string_of_list_ascii.
  - intros (front & ->). exists (list_ascii_of_string front), (list_ascii_of_string p).
    split; [apply list_ascii_of_string_app|].
    apply toks_match_literal. exists []. by rewrite app_nil_r.
Qed.

Lemma init_single_pattern pat trs self :
  EventDefinition.startswith_bang pat = false ->
  EventDefinition.init (mkDefinitionCfg (Some (TypeStr pat)) (Some trs)) = Ok self ->
  forall s, EventDefinition.match_type self (JStr s) = Ok (fnmatch s pat).
Proof.
  intros Hbang Hinit s. apply init_types in Hinit as (et & [= <-] & Hexc & Hinc).
  simpl in Hexc, Hinc. rewrite Hbang in Hexc, Hinc. simpl in Hexc, Hinc.
  rewrite match_type_str, Hexc, Hinc. simpl. by rewrite orb_false_r, andb_true_r.
Qed.

(** X10.  A rule whose [event_type] is one string without wildcard
    characters accepts that very string and no other. *)
Theorem literal_rule_matches pat trs self :
  literal_pattern pat ->
  EventDefinition.startswith_bang pat = false ->
  EventDefinition.init (mkDefinitionCfg (Some (TypeStr pat)) (Some trs)) = Ok self ->
  forall s, EventDefinition.match_type self (JStr s) = Ok true <-> s = pat.
Proof.
  intros Hlit Hbang Hinit s. rewrite (init_single_pattern pat trs self Hbang Hinit).
  rewrite <- (fnmatch_literal s pat Hlit). split; [by intros [= ->] | by intros ->].
Qed.

(** X11.  A rule whose [event_type] is a wildcard-free prefix followed by
    [*] accepts exactly the strings that start with the prefix. *)
Theorem prefix_rule_matches p trs self :
  literal_pattern p ->
  EventDefinition.startswith_bang (String.append p "*") = false ->
  EventDefinition.init (mkDefinitionCfg (Some (TypeStr (String.append p "*"))) (Some trs))
    = Ok self ->
  forall s,
    EventDefinition.match_type self (JStr s) = Ok true <->
    exists rest, s = String.append p rest.
Proof.
  intros Hlit Hbang Hinit s. rewrite (init_single_pattern _ trs self Hbang Hinit).
  rewrite <- (fnmatch_prefix s p Hlit). split; [by intros [= ->] | by intros ->].
Qed.

(** X12.  A rule whose [event_type] is [*] followed by a wildcard-free
    suffix accepts exactly the strings that end with the suffix. *)
Theorem suffix_rule_matches p trs self :
  literal_pattern p ->
  EventDefinition.init (mkDefinitionCfg (Some (TypeStr (String "*" p))) (Some trs)) = Ok self ->
  forall s,
    EventDefinition.match_type self (JStr s) = Ok true <->
    exists front, s = String.append front p.
Proof.
  intros Hlit Hinit s. rewrite (init_single_pattern (String "*" p) trs self eq_refl Hinit).
  rewrite <- (fnmatch_suffix s p Hlit). split; [by intros [= ->] | by intros ->].
Qed.

Lemma literal_rule_matches_witness :
  EventDefinition.match_type
    (rule_of (mkDefinitionCfg (Some (TypeStr "compute.instance.exists")) (Some [])))
    (JStr "compute.instance.create") = Ok true <->
  "compute.instance.create" = "compute.instance.exists".
Proof.
  refine (literal_rule_matches "compute.instance.exists" [] _ _ eq_refl eq_refl
            "compute.instance.create").
  apply (bool_decide_unpack _). vm_compute. exact I.
Defined.

Lemma prefix_rule_matches_witness :
  EventDefinition.match_type (rule_of image_def) (JStr "image.upload") = Ok true <->
  exists rest, "image.upload" = String.append "image." rest.
Proof.
  refine (prefix_rule_matches "image." [] (rule_of image_def) _ eq_refl eq_refl "image.upload").
  apply (bool_decide_unpack _). vm_compute. exact I.
Defined.

Lemma suffix_rule_matches_witness :
  EventDefinition.match_type
    (rule_of (mkDefinitionCfg (Some (TypeStr "*.start")) (Some [])))
    (JStr "compute.instance.create.start") = Ok true <->
  exists front, "compute.instance.create.start" = String.append front ".start".
Proof.
  refine (suffix_rule_matches ".start" [] _ _ eq_refl "compute.instance.create.start").
  apply (bool_decide_unpack _). vm_compute. exact I.
Defined.

Lemma split_types_filter entries :
  EventDefinition.split_types entries =
  (filter (fun t => EventDefinition.startswith_bang t = false) entries,
   map EventDefinition.tail1
     (filter (fun t => EventDefinition.startswith_bang t = true) entries)).
Proof.
  induction entries as [|t entries IH]; [reflexivity|].
  cbn [EventDefinition.split_types]. rewrite IH, !filter_cons.
  destruct (EventDefinition.startswith_bang t) eqn:Hb.
  - rewrite decide_False by discriminate. rewrite decide_True by reflexivity. reflexivity.
  - rewrite decide_True by reflexivity. rewrite decide_False by discriminate. reflexivity.
Qed.

(** X13.  A built rule's exclusion patterns are the [!]-entries of
    [event_type], in their order, each without its first character; its
    inclusion patterns are the other entries, in their order, or the single
    pattern [*] when there are exclusions and no other entry.  No inclusion
    pattern starts with [!]. *)
Theorem init_patterns cfg self et :
  EventDefinition.init cfg = Ok self ->
  cfg_event_type cfg = Some et ->
  let entries := EventDefinition.type_entries et in
  let inc := filter (fun t => EventDefinition.startswith_bang t = false) entries in
  let exc := filter (fun t => EventDefinition.startswith_bang t = true) entries in
  EventDefinition._excluded_types self = map EventDefinition.tail1 exc /\
  EventDefinition._included_types self =
    (match exc, inc with _ :: _, [] => ["*"] | _, _ => inc end) /\
  Forall (fun t => EventDefinition.startswith_bang t = false)
    (EventDefinition._included_types self).
Proof.
  intros Hinit Het entries inc exc.
  apply init_types in Hinit as (et' & Het' & Hexc & Hinc).
  rewrite Het in Het'. injection Het' as <-.
  rewrite split_types_filter in Hexc, Hinc. cbn [fst snd] in Hexc, Hinc.
  fold entries in Hexc, Hinc. fold inc in Hinc. fold exc in Hexc, Hinc.
  assert (Hincl : EventDefinition._included_types self =
                  match exc, inc with _ :: _, [] => ["*"] | _, _ => inc end).
  { rewrite Hinc. destruct exc, inc; reflexivity. }
  split; [exact Hexc|]. split; [exact Hincl|].
  rewrite Hincl.
  assert (Hf : Forall (fun t => EventDefinition.startswith_bang t = false) inc).
  { apply Forall_forall. intros t Ht. by apply list_elem_of_filter in Ht as [? _]. }
  destruct exc, inc; auto.
Qed.

Lemma init_patterns_witness :
  EventDefinition._excluded_types (rule_of override_def) = ["compute.instance.exists"] /\
  EventDefinition._included_types (rule_of override_def) = ["compute.instance.*"] /\
  Forall (fun t => EventDefinition.startswith_bang t = false)
    (EventDefinition._included_types (rule_of override_def)).
Proof.
  exact (init_patterns override_def (rule_of override_def) _ eq_refl eq_refl).
Defined.

(** X14.  Writing [*] in front of a list of exclusions changes nothing:
    the two rules have the same patterns and accept the same values; the
    documentation's ['!image.*'] and [['*', '!image.*']] are one rule. *)
Theorem star_with_exclusions_same (exc : list string) trs d1 d2 :
  exc <> [] ->
  Forall (fun t => EventDefinition.startswith_bang t = true) exc ->
  EventDefinition.init (mkDefinitionCfg (Some (TypeList exc)) (Some trs)) = Ok d1 ->
  EventDefinition.init (mkDefinitionCfg (Some (TypeList ("*" :: exc))) (Some trs)) = Ok d2 ->
  EventDefinition._included_types d1 = EventDefinition._included_types d2 /\
  EventDefinition._excluded_types d1 = EventDefinition._excluded_types d2 /\
  EventDefinition.traits d1 = EventDefinition.traits d2 /\
  forall v, EventDefinition.match_type d1 v = EventDefinition.match_type d2 v.
Proof.
  intros Hne Hall H1 H2.
  pose proof (event_init_inv _ _ H1) as (_ & trs1 & _ & [= <-] & Htr1 & _).
  pose proof (event_init_inv _ _ H2) as (_ & trs2 & _ & [= <-] & Htr2 & _).
  apply init_types in H1 as (? & [= <-] & Hexc1 & Hinc1).
  apply init_types in H2 as (? & [= <-] & Hexc2 & Hinc2).
  cbn [EventDefinition.type_entries EventDefinition.split_types] in *.
  rewrite split_types_excluded in * by assumption.
  cbn [fst snd EventDefinition.startswith_bang Ascii.eqb Bool.eqb] in *.
  assert (Hi : EventDefinition._included_types d1 = EventDefinition._included_types d2).
  { rewrite Hinc1, Hinc2. destruct exc; [congruence | reflexivity]. }
  assert (He : EventDefinition._excluded_types d1 = EventDefinition._excluded_types d2)
    by congruence.
  split; [exact Hi|]. split; [exact He|]. split; [congruence|].
  intros v. unfold EventDefinition.match_type, EventDefinition.included_type,
    EventDefinition.excluded_type. by rewrite Hi, He.
Qed.

Lemma star_with_exclusions_same_witness :
  EventDefinition.match_type
    (rule_of (mkDefinitionCfg (Some (TypeList ["!image.*"])) (Some [])))
    (JStr "image.upload") =
  EventDefinition.match_type
    (rule_of (mkDefinitionCfg (Some (TypeList ["*"; "!image.*"])) (Some [])))
    (JStr "image.upload").
Proof.
  refine (proj2 (proj2 (proj2
    (star_with_exclusions_same ["!image.*"] [] _ _ _ _ eq_refl eq_refl))) (JStr "image.upload")).
  - discriminate.
  - repeat constructor.
Defined.

(** X15.  A rule built from an empty [event_type] list has no pattern at
    all: it accepts no value, is not a catch-all, and a converter passes
    over it. *)
Theorem empty_type_list_matches_nothing trs self :
  EventDefinition.init (mkDefinitionCfg (Some (TypeList [])) (Some trs)) = Ok self ->
  EventDefinition._included_types self = [] /\
  EventDefinition._excluded_types self = [] /\
  EventDefinition.is_catchall self = false /\
  (forall v, EventDefinition.match_type self v = Ok false) /\
  (forall defs v,
     NotificationEventsConverter.first_match (self :: defs) v =
     NotificationEventsConverter.first_match defs v).
Proof.
  intros Hinit. apply init_types in Hinit as (? & [= <-] & Hexc & Hinc).
  simpl in Hexc, Hinc.
  assert (Hm : forall v, EventDefinition.match_type self v = Ok false).
  { intros v. unfold EventDefinition.match_type, EventDefinition.included_type.
    by rewrite Hinc. }
  split; [exact Hinc|]. split; [exact Hexc|]. split.
  { unfold EventDefinition.is_catchall. by rewrite Hinc. }
  split; [exact Hm|]. intros defs v. simpl. by rewrite Hm.
Qed.

Lemma empty_type_list_matches_nothing_witness :
  EventDefinition.match_type
    (rule_of (mkDefinitionCfg (Some (TypeList [])) (Some [])))
    (JStr "compute.instance.exists") = Ok false.
Proof.
  exact (proj1 (proj2 (proj2 (proj2
    (empty_type_list_matches_nothing []
       (rule_of (mkDefinitionCfg (Some (TypeList [])) (Some []))) eq_refl))))
    (JStr "compute.instance.exists")).
Defined.

(** X16.  Accepting is monotone in the patterns: a rule with at least the
    inclusions and at most the exclusions of another accepts every string
    the other accepts. *)
Theorem match_type_monotone (d d' : EventDefinition.t) s :
  EventDefinition._included_types d ⊆ EventDefinition._included_types d' ->
  EventDefinition._excluded_types d' ⊆ EventDefinition._excluded_types d ->
  EventDefinition.match_type d (JStr s) = Ok true ->
  EventDefinition.match_type d' (JStr s) = Ok true.
Proof.
  rewrite !match_type_str. intros Hinc Hexc [= Hm]. f_equal.
  apply andb_true_iff in Hm as [Hi He]. apply andb_true_iff. split.
  - apply existsb_elem_of in Hi as (p & Hp & Hf). apply existsb_elem_of.
    exists p. split; [by apply Hinc | exact Hf].
  - apply negb_true_iff in He. apply negb_true_iff.
    apply existsb_false_elem_of. intros p Hp.
    eapply existsb_false_elem_of in He; [exact He | by apply Hexc].
Qed.

Lemma match_type_monotone_witness :
  EventDefinition.match_type (rule_of broad_def) (JStr "compute.instance.create.start")
  = Ok true.
Proof.
  refine (match_type_monotone
            (EventDefinition.mk ["compute.*"] ["compute.instance.exists"] [] broad_def)
            (rule_of broad_def) "compute.instance.create.start" _ _ eq_refl).
  - intros p Hp. exact Hp.
  - intros p Hp. inversion Hp.
Defined.

(** ** The rule table *)

Lemma build_definitions_inv cfgs ds :
  NotificationEventsConverter.build_definitions cfgs = Ok ds ->
  Forall2 (fun cfg d => EventDefinition.init cfg = Ok d) cfgs ds.
Proof.
  revert ds. induction cfgs as [|cfg cfgs IH]; intros ds; simpl.
  - intros [= <-]. constructor.
  - destruct (EventDefinition.init cfg) as [d|] eqn:Hd; [|discriminate]. simpl.
    destruct (NotificationEventsConverter.build_definitions cfgs) as [ds'|]; [|discriminate].
    simpl. intros [= <-]. constructor; [exact Hd | by apply IH].
Qed.

Lemma build_definitions_ok cfgs :
  Forall (fun cfg => is_ok (EventDefinition.init cfg)) cfgs ->
  is_ok (NotificationEventsConverter.build_definitions cfgs).
Proof.
  induction 1 as [|cfg cfgs [d Hd] _ [ds IH]]; simpl.
  - by eexists.
  - rewrite Hd, IH. by eexists.
Qed.

Lemma build_definitions_raise pre cfg post e :
  Forall (fun cfg => is_ok (EventDefinition.init cfg)) pre ->
  EventDefinition.init cfg = Raise e ->
  NotificationEventsConverter.build_definitions (pre ++ cfg :: post) = Raise e.
Proof.
  intros Hpre Hraise. induction Hpre as [|cfg' pre [d Hd] _ IH]; simpl.
  - by rewrite Hraise.
  - by rewrite Hd, IH.
Qed.

Lemma init_catchall_def :
  EventDefinition.init catchall_def = Ok (rule_of catchall_def) /\
  EventDefinition.is_catchall (rule_of catchall_def) = true.
Proof. split; reflexivity. Qed.

(** X17.  The rules of a built converter are the rules built from the
    configuration entries, one per entry and in their order; the catch-all
    rule is added after them, and only when it was asked for and none of
    them is a catch-all. *)
Theorem converter_init_definitions events_config add_catchall conv :
  NotificationEventsConverter.init events_config add_catchall = Ok conv ->
  exists ds,
    Forall2 (fun cfg d => EventDefinition.init cfg = Ok d) events_config ds /\
    NotificationEventsConverter.definitions conv =
    ds ++ (if add_catchall && negb (existsb EventDefinition.is_catchall ds)
           then [rule_of catchall_def] else []).
Proof.
  unfold NotificationEventsConverter.init.
  destruct (NotificationEventsConverter.build_definitions events_config) as [ds|] eqn:Hds;
    [|discriminate]. cbn [rbind].
  intros Hinit. exists ds. split; [by apply build_definitions_inv|].
  destruct (add_catchall && negb (existsb EventDefinition.is_catchall ds)).
  - change (mkDefinitionCfg (Some (TypeStr "*")) (Some [])) with catchall_def in Hinit.
    rewrite (proj1 init_catchall_def) in Hinit. cbn [rbind] in Hinit.
    by injection Hinit as <-.
  - injection Hinit as <-. by rewrite app_nil_r.
Qed.

Lemma converter_init_definitions_witness :
  exists ds,
    Forall2 (fun cfg d => EventDefinition.init cfg = Ok d) [image_def; override_def] ds /\
    [rule_of image_def; rule_of override_def; rule_of catchall_def] =
    ds ++ (if true && negb (existsb EventDefinition.is_catchall ds)
           then [rule_of catchall_def] else []).
Proof.
  exact (converter_init_definitions [image_def; override_def] true
           (NotificationEventsConverter.mk
              [rule_of image_def; rule_of override_def; rule_of catchall_def]) eq_refl).
Defined.

(** X18.  Building a converter succeeds exactly when every configuration
    entry builds a rule, with or without the catch-all; otherwise the error
    of the first entry that fails is raised and no converter exists. *)
Theorem converter_init_ok_iff events_config add_catchall :
  (is_ok (NotificationEventsConverter.init events_config add_catchall) <->
   Forall (fun cfg => is_ok (EventDefinition.init cfg)) events_config) /\
  (forall pre cfg post e,
     events_config = pre ++ cfg :: post ->
     Forall (fun cfg => is_ok (EventDefinition.init cfg)) pre ->
     EventDefinition.init cfg = Raise e ->
     NotificationEventsConverter.init events_config add_catchall = Raise e).
Proof.
  split; [split|].
  - intros [conv Hconv]. unfold NotificationEventsConverter.init in Hconv.
    destruct (NotificationEventsConverter.build_definitions events_config) as [ds|] eqn:Hds;
      [|discriminate].
    apply build_definitions_inv in Hds. clear -Hds.
    induction Hds; constructor; [by eexists | assumption].
  - intros Hall. destruct (build_definitions_ok _ Hall) as [ds Hds].
    unfold NotificationEventsConverter.init. rewrite Hds. cbn [rbind].
    destruct (add_catchall && _); [|by eexists].
    change (mkDefinitionCfg (Some (TypeStr "*")) (Some [])) with catchall_def.
    rewrite (proj1 init_catchall_def). by eexists.
  - intros pre cfg post e -> Hpre Hraise. unfold NotificationEventsConverter.init.
    by rewrite (build_definitions_raise pre cfg post e Hpre Hraise).
Qed.

Lemma converter_init_ok_iff_witness :
  NotificationEventsConverter.init [valid_event_def1; bogus_type_def; image_def] true =
  Raise (EventDefinitionException "Invalid trait type 'bogus' for trait bogus").
Proof.
  refine (proj2 (converter_init_ok_iff [valid_event_def1; bogus_type_def; image_def] true)
            [valid_event_def1] bogus_type_def [image_def] _ eq_refl _ eq_refl).
  repeat constructor. by eexists.
Defined.

Lemma match_type_catchall_cases c v :
  EventDefinition.is_catchall c = true ->
  EventDefinition.match_type c v = Ok true \/ EventDefinition.match_type c v = Raise TypeError.
Proof.
  intros Hc. destruct v; try (left; by apply catchall_matches);
    right; apply is_catchall_spec in Hc as [Hstar _];
    unfold EventDefinition.match_type, EventDefinition.included_type;
    destruct (EventDefinition._included_types c); (try by inversion Hstar); reflexivity.
Qed.

Lemma first_match_catchall_shadows pre c post v :
  EventDefinition.is_catchall c = true ->
  NotificationEventsConverter.first_match (pre ++ c :: post) v =
  NotificationEventsConverter.first_match (pre ++ [c]) v.
Proof.
  intros Hc. induction pre as [|d pre IH]; simpl.
  - by destruct (match_type_catchall_cases c v Hc) as [-> | ->].
  - destruct (EventDefinition.match_type d v) as [[|]|]; simpl; auto.
Qed.

Lemma first_match_not_string defs v :
  (forall s, v <> JStr s) ->
  existsb EventDefinition.is_catchall defs = true ->
  NotificationEventsConverter.first_match defs v = Raise TypeError.
Proof.
  intros Hv. induction defs as [|d defs IH]; simpl; [discriminate|].
  assert (Hm : EventDefinition.match_type d v = Raise TypeError \/
               (EventDefinition.match_type d v = Ok false /\
                EventDefinition._included_types d = [])).
  { unfold EventDefinition.match_type, EventDefinition.included_type.
    destruct (EventDefinition._included_types d) as [|t ts]; [by right|]. left.
    destruct v; try reflexivity. by destruct (Hv s). }
  intros Hex. destruct Hm as [-> | [-> Hinc]]; [reflexivity|]. simpl.
  apply IH. apply orb_true_iff in Hex as [Hd | Hex]; [|exact Hex].
  apply is_catchall_spec in Hd as [Hstar _]. rewrite Hinc in Hstar. inversion Hstar.
Qed.

Section RuleTable.
Context `{Runtime}.
Implicit Types (now : datetime) (body : gmap string json).

(** X19.  Rules declared after a catch-all rule are dead: the converter
    gives the same result, on every notification, as without them. *)
Theorem catchall_shadows_later_rules pre c post now body :
  EventDefinition.is_catchall c = true ->
  NotificationEventsConverter.to_event
    (NotificationEventsConverter.mk (pre ++ c :: post)) now body =
  NotificationEventsConverter.to_event
    (NotificationEventsConverter.mk (pre ++ [c])) now body.
Proof.
  intros Hc. unfold NotificationEventsConverter.to_event.
  destruct (dict_item body "event_type") as [et|]; [|reflexivity]. cbn [rbind].
  destruct (dict_item body "message_id"); [|reflexivity]. cbn [rbind].
  cbn [NotificationEventsConverter.definitions].
  by rewrite first_match_catchall_shadows.
Qed.

(** X20.  A notification without [event_type] makes the converter raise
    [KeyError] for that key, and one with [event_type] but without
    [message_id] makes it raise [KeyError] for [message_id], whatever the
    rules are (also with an empty table).  A rule's own [to_event] does not
    need [message_id]: a rule with text traits only still makes an event of
    such a notification. *)
Theorem missing_keys_raise (conv : NotificationEventsConverter.t)
    (self : EventDefinition.t) now body :
  (body !! "event_type" = None ->
   NotificationEventsConverter.to_event conv now body = Raise (KeyError "event_type") /\
   EventDefinition.to_event self now body = Raise (KeyError "event_type")) /\
  (is_Some (body !! "event_type") -> body !! "message_id" = None ->
   NotificationEventsConverter.to_event conv now body = Raise (KeyError "message_id") /\
   (is_ok (EventDefinition._extract_when now body) ->
    Forall (fun ntd => TraitDefinition.trait_type ntd.2 = TEXT_TYPE)
      (EventDefinition.traits self) ->
    is_ok (EventDefinition.to_event self now body))).
Proof.
  split.
  - intros Het. unfold NotificationEventsConverter.to_event, EventDefinition.to_event, dict_item.
    by rewrite Het.
  - intros [et Het] Hmid. split.
    + unfold NotificationEventsConverter.to_event, dict_item. by rewrite Het, Hmid.
    + intros [when Hwhen] Htext.
      destruct (collect_traits_text (EventDefinition.traits self) body Htext) as [trs Htrs].
      unfold EventDefinition.to_event, dict_item. rewrite Het. cbn [rbind].
      rewrite Hwhen. cbn [rbind]. rewrite Htrs. by eexists.
Qed.

(** X21.  A converter built with the catch-all raises [TypeError] on a
    notification whose [event_type] is not a string: it neither drops the
    notification nor makes an event of it. *)
Theorem non_string_event_type_raises events_config conv now body v :
  NotificationEventsConverter.init events_config true = Ok conv ->
  body !! "event_type" = Some v ->
  (forall s, v <> JStr s) ->
  is_Some (body !! "message_id") ->
  NotificationEventsConverter.to_event conv now body = Raise TypeError.
Proof.
  intros Hinit Het Hv [mid Hmid].
  apply init_definitions in Hinit as (ds & _ & Hadd & _).
  unfold NotificationEventsConverter.to_event, dict_item. rewrite Het, Hmid. cbn [rbind].
  by rewrite (first_match_not_string _ v Hv (Hadd eq_refl)).
Qed.
End RuleTable.

Lemma catchall_shadows_later_rules_witness :
  NotificationEventsConverter.to_event
    (NotificationEventsConverter.mk
       ([rule_of image_def] ++ rule_of catchall_def :: [rule_of override_def]))
    "2026-01-01 00:00:00" test_notification1 =
  NotificationEventsConverter.to_event
    (NotificationEventsConverter.mk ([rule_of image_def] ++ [rule_of catchall_def]))
    "2026-01-01 00:00:00" test_notification1.
Proof.
  exact (catchall_shadows_later_rules (H := demo_runtime) [rule_of image_def]
           (rule_of catchall_def) [rule_of override_def]
           "2026-01-01 00:00:00" test_notification1 eq_refl).
Defined.

Lemma missing_keys_raise_witness :
  NotificationEventsConverter.to_event (NotificationEventsConverter.mk [])
    "2026-01-01 00:00:00" (delete "message_id" test_notification1)
  = Raise (KeyError "message_id") /\
  is_ok (EventDefinition.to_event (rule_of catchall_def) "2026-01-01 00:00:00"
           (delete "message_id" test_notification1)).
Proof.
  destruct (proj2 (missing_keys_raise (H := demo_runtime) (NotificationEventsConverter.mk [])
                     (rule_of catchall_def) "2026-01-01 00:00:00"
                     (delete "message_id" test_notification1))) as [Hraise Hrule].
  - by eexists.
  - reflexivity.
  - split; [exact Hraise|]. apply Hrule.
    + by eexists.
    + repeat constructor.
Defined.

Lemma non_string_event_type_raises_witness :
  NotificationEventsConverter.to_event
    (NotificationEventsConverter.mk [rule_of image_def; rule_of catchall_def])
    "2026-01-01 00:00:00" (<["event_type" := JInt 7]> test_notification1)
  = Raise TypeError.
Proof.
  refine (non_string_event_type_raises (H := demo_runtime) [image_def] _
            "2026-01-01 00:00:00" (<["event_type" := JInt 7]> test_notification1) (JInt 7)
            eq_refl eq_refl _ _).
  - discriminate.
  - by eexists.
Defined.

(** X22.  A catch-all rule accepts every event type string, whatever
    other inclusion patterns stand beside its [*]. *)
Theorem catchall_accepts_all (self : EventDefinition.t) s :
  EventDefinition.is_catchall self = true ->
  EventDefinition.match_type self (JStr s) = Ok true.
Proof. apply catchall_matches. Qed.

Lemma catchall_accepts_all_witness :
  EventDefinition.match_type
    (rule_of (mkDefinitionCfg (Some (TypeList ["*"; "foo"])) (Some [])))
    (JStr "bogus.notification.from.mars") = Ok true.
Proof.
  exact (catchall_accepts_all
           (rule_of (mkDefinitionCfg (Some (TypeList ["*"; "foo"])) (Some [])))
           "bogus.notification.from.mars" eq_refl).
Defined.

(** ** Dotted paths *)

Lemma find_field_any k (v : json) :
  k <> "*" ->
  find (Fields [k]) v =
  match get_path [k] v with Some x => [x] | None => [] end.
Proof.
  intros Hk. destruct v; try (simpl; unfold reified_fields;
    rewrite bool_decide_eq_false_2;
    [reflexivity | intros Hin; apply list_elem_of_singleton in Hin; congruence]).
  rewrite find_field by exact Hk. simpl. by destruct (d !! k).
Qed.

Lemma concat_map_concat {A B C} (f : B -> list C) (f' : A -> list C) (h : A -> list B) l :
  (forall x, concat (map f (h x)) = f' x) ->
  concat (map f (concat (map h l))) = concat (map f' l).
Proof.
  intros Hpt. induction l as [|a l IH]; [reflexivity|].
  simpl. by rewrite map_app, concat_app, Hpt, IH.
Qed.

Lemma find_dotted_from ks p v :
  Forall (fun k => k <> "*") ks ->
  find (fold_left (fun p k' => Child p (Fields [k'])) ks p) v =
  concat (map (fun x => match get_path ks x with Some y => [y] | None => [] end) (find p v)).
Proof.
  intros Hks. revert p. induction Hks as [|k ks Hk _ IH]; intros p.
  - simpl. induction (find p v) as [|x l IHl]; [reflexivity|]. simpl. by rewrite <- IHl.
  - cbn [fold_left]. rewrite IH.
    change (find (Child p (Fields [k])) v)
      with (concat (map (find (Fields [k])) (find p v))).
    apply (concat_map_concat _ _ (find (Fields [k]))).
    intros x. rewrite (find_field_any k x Hk).
    destruct x; try reflexivity. simpl. destruct (d !! k) as [x'|]; [|reflexivity].
    simpl. by rewrite app_nil_r.
Qed.

Lemma find_dotted k ks v :
  Forall (fun k => k <> "*") (k :: ks) ->
  find (dotted_path k ks) v =
  match get_path (k :: ks) v with Some y => [y] | None => [] end.
Proof.
  intros Hks. apply Forall_cons in Hks as [Hk Hks].
  unfold dotted_path. rewrite find_dotted_from by exact Hks.
  rewrite (find_field_any k v Hk).
  destruct v; try reflexivity. simpl. destruct (d !! k) as [x|]; [|reflexivity].
  simpl. by rewrite app_nil_r.
Qed.

Section DottedPaths.
Context `{Runtime}.

(** X23.  A trait read through a dotted path [k.k1...] yields no trait,
    and raises nothing, when a key on the way is missing, when a value on
    the way is not a mapping, or when the value at the end is null;
    otherwise it is the conversion of the value at the end. *)
Theorem to_trait_dotted (td : TraitDefinition.t) k ks (body : gmap string json) :
  TraitDefinition.fields td = dotted_path k ks ->
  Forall (fun k => k <> "*") (k :: ks) ->
  TraitDefinition.to_trait td body =
  match get_path (k :: ks) (JDict body) with
  | None | Some JNull => Ok None
  | Some v =>
      let* x := TraitDefinition._convert_value (TraitDefinition.trait_type td) v in
      Ok (Some (mkTrait (TraitDefinition.name td) (TraitDefinition.trait_type td) x))
  end.
Proof.
  intros Hf Hks. rewrite to_trait_spec, Hf, (find_dotted k ks _ Hks).
  destruct (get_path (k :: ks) (JDict body)) as [v|]; [|reflexivity].
  by destruct v.
Qed.
End DottedPaths.

Lemma to_trait_dotted_witness :
  TraitDefinition.to_trait
    (rule_trait "test_trait"
       (mkTraitCfg (Some "text") (Some (FieldsStr (dotted_path "payload" ["not_here_boss"])))))
    test_notification1 = Ok None.
Proof.
  refine (to_trait_dotted (H := demo_runtime)
            (rule_trait "test_trait"
               (mkTraitCfg (Some "text")
                  (Some (FieldsStr (dotted_path "payload" ["not_here_boss"])))))
            "payload" ["not_here_boss"] test_notification1 eq_refl _).
  repeat constructor; discriminate.
Defined.

(** ** Trait types *)

Lemma ascii_upper_idem c : ascii_upper (ascii_upper c) = ascii_upper c.
Proof.
  unfold ascii_upper.
  destruct ((97 <=? nat_of_ascii c)%nat && (nat_of_ascii c <=? 122)%nat) eqn:Hc.
  - apply andb_true_iff in Hc as [H1 H2]. apply Nat.leb_le in H1, H2.
    rewrite nat_ascii_embedding by lia.
    replace ((97 <=? nat_of_ascii c - 32)%nat) with false; [reflexivity|].
    symmetry. apply Nat.leb_gt. lia.
  - by rewrite Hc.
Qed.

Lemma upper_idem s : upper (upper s) = upper s.
Proof.
  unfold upper. rewrite list_ascii_of_string_of_list_ascii. f_equal.
  induction (list_ascii_of_string s) as [|c l IH]; [reflexivity|].
  simpl. by rewrite ascii_upper_idem, IH.
Qed.

(** X24.  The type name of a trait is looked up without regard to letter
    case, and a trait without a type is a text trait: the name in upper
    case builds a definition exactly when the name as written does, and
    then with the same name, path and type; likewise ["text"] for a type
    that was not given.  When the name is unknown, the error names the
    type as it was written, and the trait. *)
Theorem trait_type_name_case name ty fields :
  let same (r1 r2 : result TraitDefinition.t) :=
    match r1, r2 with
    | Ok t1, Ok t2 =>
        TraitDefinition.name t1 = TraitDefinition.name t2 /\
        TraitDefinition.fields t1 = TraitDefinition.fields t2 /\
        TraitDefinition.trait_type t1 = TraitDefinition.trait_type t2
    | Raise _, Raise _ => True
    | _, _ => False
    end in
  same (TraitDefinition.init name (mkTraitCfg (Some ty) fields))
       (TraitDefinition.init name (mkTraitCfg (Some (upper ty)) fields)) /\
  same (TraitDefinition.init name (mkTraitCfg None fields))
       (TraitDefinition.init name (mkTraitCfg (Some "text") fields)) /\
  (forall p, trait_type_of ty = None -> fields = Some (FieldsStr p) ->
     TraitDefinition.init name (mkTraitCfg (Some ty) fields) =
     Raise (EventDefinitionException
              ("Invalid trait type '" +:+ ty +:+ "' for trait " +:+ name))).
Proof.
  intros same. subst same. unfold TraitDefinition.init. simpl.
  assert (Hty : trait_type_of (upper ty) = trait_type_of ty).
  { unfold trait_type_of. by rewrite upper_idem. }
  rewrite Hty. split; [|split].
  - destruct fields as [f|]; [|exact I].
    destruct f as [p|[|p [|q ps]]|text err]; cbn [rbind]; try exact I;
      by destruct (trait_type_of ty).
  - destruct fields as [f|]; [|exact I].
    destruct f as [p|[|p [|q ps]]|text err]; cbn [rbind]; try exact I; simpl; auto.
  - intros p Hnone ->. cbn [rbind]. by rewrite Hnone.
Qed.

Lemma trait_type_name_case_witness :
  TraitDefinition.init "bogus_trait"
    (mkTraitCfg (Some "Bogus") (Some (FieldsStr (payload_path "test")))) =
  Raise (EventDefinitionException "Invalid trait type 'Bogus' for trait bogus_trait").
Proof.
  exact (proj2 (proj2 (trait_type_name_case "bogus_trait" "Bogus"
                         (Some (FieldsStr (payload_path "test")))))
           (payload_path "test") eq_refl eq_refl).
Defined.

(** A path the parser rejects: the error names the text, the trait and
    the parser's complaint. *)
Example invalid_path_config :
  TraitDefinition.init "bogus_trait"
    (mkTraitCfg None (Some (FieldsInvalid "payload.bogus(" "Parse error near the end")))
  = Raise (EventDefinitionException
      "Parse error in JSONPath specification 'payload.bogus(' for bogus_trait: Parse error near the end").
Proof. reflexivity. Qed.
